(** * bazel-remote: digest functions, action-cache keys and the asset
      [FetchBlob] resolver

    A shallow embedding of
    - [cache/hashing/sha386.go], [cache/hashing/sha512.go] (the SHA-384 and
      SHA-512 [Hasher] implementations),
    - [cache/cache.go] ([EntryKind], [TransformActionCacheKey], [LookupKey]),
    - the asset server ([FetchBlob], [fetchItem]),
    together with the parts of the Go standard library they call
    ([encoding/hex], [encoding/base64], [strings.SplitN], [crypto/sha256],
    [crypto/sha512]). *)

From Stdlib Require Import ZArith NArith List String Ascii Bool Lia.
From Stdlib Require Import Strings.Byte.
Import ListNotations.
Local Open Scope string_scope.
Local Open Scope list_scope.
Local Open Scope Z_scope.

(* ================================================================== *)
(** ** Go strings and byte slices *)

(** A Go [string] is an immutable byte sequence: [string] here; a [[]byte]
    is a [list byte].  [[]byte(s)] is [list_byte_of_string s]. *)

Definition byte_of_Z (z : Z) : byte :=
  match Byte.of_N (Z.to_N (z mod 256)) with
  | Some b => b
  | None => x00
  end.

Definition Z_of_byte (b : byte) : Z := Z.of_N (Byte.to_N b).

(** [len(s)] of a Go string, as an [int]. *)
Definition len (s : string) : Z := Z.of_nat (String.length s).

(* ------------------------------------------------------------------ *)
(** *** encoding/hex *)

Module hex.

Definition hextable : list ascii :=
  list_ascii_of_string "0123456789abcdef".

(** [hextable[i]] *)
Definition tab (i : Z) : ascii := nth (Z.to_nat i) hextable zero.

(** [hex.EncodeToString]: for every byte [v], [hextable[v>>4]] then
    [hextable[v&0x0f]]. *)
Fixpoint EncodeToString (src : list byte) : string :=
  match src with
  | [] => EmptyString
  | v :: rest =>
      String (tab (Z.shiftr (Z_of_byte v) 4))
        (String (tab (Z.land (Z_of_byte v) 15)) (EncodeToString rest))
  end.

End hex.

(* ------------------------------------------------------------------ *)
(** *** crypto/sha256 and crypto/sha512

    Both packages share one construction (FIPS 180-4); [sha2.Generic]
    follows Go's [digest] type ([h], [x], [nx], [len]), its [Write],
    [checkSum] and [blockGeneric], parametrised by the word size. *)

Module sha2.

(** [bits.RotateLeft(x, -k)] on [w]-bit words. *)
Definition RotateRight (w x k : Z) : Z :=
  Z.lor (Z.shiftr x k) (Z.shiftl x (w - k) mod 2 ^ w).

Record regs := mkRegs { r0 : Z; r1 : Z; r2 : Z; r3 : Z;
                        r4 : Z; r5 : Z; r6 : Z; r7 : Z }.

(** [binary.BigEndian.PutUintN]: the [n] low-order bytes of [v], most
    significant first. *)
Definition PutUint (n : nat) (v : Z) : list byte :=
  map (fun i => byte_of_Z (Z.shiftr v (8 * Z.of_nat i))) (rev (seq 0 n)).

(** [binary.BigEndian.UintN] *)
Definition Uint (p : list byte) : Z :=
  fold_left (fun acc b => Z.lor (Z.shiftl acc 8) (Z_of_byte b)) p 0.

Section Generic.
Variable wbits : Z.          (* 32 for SHA-256, 64 for SHA-384/512 *)
Variable K : list Z.         (* the round constants [_K] *)
(* rotation and shift amounts of the four mixing functions *)
Variable S0a S0b S0c S1a S1b S1c : Z.
Variable s0a s0b s0c s1a s1b s1c : Z.

Definition wbytes : nat := Z.to_nat (wbits / 8).
Definition chunk : nat := (16 * wbytes)%nat.
Definition wrap (v : Z) : Z := v mod 2 ^ wbits.
Definition rotr := RotateRight wbits.

(** the 16 big-endian words of one block *)
Fixpoint words (n : nat) (p : list byte) : list Z :=
  match n with
  | O => []
  | S n' => Uint (firstn wbytes p) :: words n' (skipn wbytes p)
  end.

(** [for i := 16; i < rounds; i++ { w[i] = t1 + w[i-7] + t2 + w[i-16] }] *)
Fixpoint schedule (n : nat) (w : list Z) : list Z :=
  match n with
  | O => w
  | S n' =>
      let i := List.length w in
      let v1 := nth (i - 2) w 0 in
      let t1 := Z.lxor (Z.lxor (rotr v1 s1a) (rotr v1 s1b)) (Z.shiftr v1 s1c) in
      let v2 := nth (i - 15) w 0 in
      let t2 := Z.lxor (Z.lxor (rotr v2 s0a) (rotr v2 s0b)) (Z.shiftr v2 s0c) in
      schedule n' (w ++ [wrap (t1 + nth (i - 7) w 0 + t2 + nth (i - 16) w 0)])
  end.

Definition round (v : regs) (kw : Z * Z) : regs :=
  let '(mkRegs a b c d e f g h) := v in
  let t1 := wrap (h
              + Z.lxor (Z.lxor (rotr e S1a) (rotr e S1b)) (rotr e S1c)
              + Z.lxor (Z.land e f) (Z.land (Z.lxor e (2 ^ wbits - 1)) g)
              + fst kw + snd kw) in
  let t2 := wrap (Z.lxor (Z.lxor (rotr a S0a) (rotr a S0b)) (rotr a S0c)
              + Z.lxor (Z.lxor (Z.land a b) (Z.land a c)) (Z.land b c)) in
  mkRegs (wrap (t1 + t2)) a b c (wrap (d + t1)) e f g.

(** one iteration of [blockGeneric]: compress one [chunk]-byte block *)
Definition block (hv : regs) (p : list byte) : regs :=
  let w := schedule (List.length K - 16) (words 16 p) in
  let v := fold_left round (combine K w) hv in
  mkRegs (wrap (r0 hv + r0 v)) (wrap (r1 hv + r1 v))
         (wrap (r2 hv + r2 v)) (wrap (r3 hv + r3 v))
         (wrap (r4 hv + r4 v)) (wrap (r5 hv + r5 v))
         (wrap (r6 hv + r6 v)) (wrap (r7 hv + r7 v)).

(** [d.h], the pending bytes [d.x[:d.nx]] and [d.len] (a [uint64]) *)
Record digest := mkDigest { h : regs; x : list byte; dlen : Z }.

(** Compress every complete block of [buf]; the rest stays pending.
    [fuel] bounds the number of blocks. *)
Fixpoint absorb (fuel : nat) (hv : regs) (buf : list byte)
  : regs * list byte :=
  match fuel with
  | O => (hv, buf)
  | S fuel' =>
      if (chunk <=? List.length buf)%nat
      then absorb fuel' (block hv (firstn chunk buf)) (skipn chunk buf)
      else (hv, buf)
  end.

(** [digest.Write]: the pending bytes followed by [p] are compressed
    block by block, what is left of them is kept in [d.x]. *)
Definition Write (d : digest) (p : list byte) : digest :=
  let buf := x d ++ p in
  let '(hv, rest) := absorb (List.length buf) (h d) buf in
  mkDigest hv rest ((dlen d + Z.of_nat (List.length p)) mod 2 ^ 64).

Definition regs_bytes (v : regs) : list byte :=
  PutUint wbytes (r0 v) ++ PutUint wbytes (r1 v) ++
  PutUint wbytes (r2 v) ++ PutUint wbytes (r3 v) ++
  PutUint wbytes (r4 v) ++ PutUint wbytes (r5 v) ++
  PutUint wbytes (r6 v) ++ PutUint wbytes (r7 v).

(** [digest.checkSum]: a 1 bit, zeros up to the length field, the
    length in bits (its upper half is always zero for SHA-512), then
    the registers in big-endian order. *)
Definition checkSum (d : digest) : list byte :=
  let c := Z.of_nat chunk in
  let lb := c / 8 in
  let l := dlen d in
  let t := if l mod c <? c - lb then c - lb - l mod c
           else c + (c - lb) - l mod c in
  let padlen := x80 :: repeat x00 (Z.to_nat (t - 1) + Z.to_nat (lb - 8))
                  ++ PutUint 8 (Z.shiftl l 3 mod 2 ^ 64) in
  regs_bytes (h (Write d padlen)).

(** [digest.Sum] appends the checksum of a copy of [d]. *)
Definition Sum (d : digest) (b : list byte) : list byte :=
  b ++ checkSum d.

End Generic.

End sha2.

Module sha512.

Definition _K : list Z :=
[ 0x428a2f98d728ae22; 0x7137449123ef65cd; 0xb5c0fbcfec4d3b2f; 0xe9b5dba58189dbbc;
  0x3956c25bf348b538; 0x59f111f1b605d019; 0x923f82a4af194f9b; 0xab1c5ed5da6d8118;
  0xd807aa98a3030242; 0x12835b0145706fbe; 0x243185be4ee4b28c; 0x550c7dc3d5ffb4e2;
  0x72be5d74f27b896f; 0x80deb1fe3b1696b1; 0x9bdc06a725c71235; 0xc19bf174cf692694;
  0xe49b69c19ef14ad2; 0xefbe4786384f25e3; 0x0fc19dc68b8cd5b5; 0x240ca1cc77ac9c65;
  0x2de92c6f592b0275; 0x4a7484aa6ea6e483; 0x5cb0a9dcbd41fbd4; 0x76f988da831153b5;
  0x983e5152ee66dfab; 0xa831c66d2db43210; 0xb00327c898fb213f; 0xbf597fc7beef0ee4;
  0xc6e00bf33da88fc2; 0xd5a79147930aa725; 0x06ca6351e003826f; 0x142929670a0e6e70;
  0x27b70a8546d22ffc; 0x2e1b21385c26c926; 0x4d2c6dfc5ac42aed; 0x53380d139d95b3df;
  0x650a73548baf63de; 0x766a0abb3c77b2a8; 0x81c2c92e47edaee6; 0x92722c851482353b;
  0xa2bfe8a14cf10364; 0xa81a664bbc423001; 0xc24b8b70d0f89791; 0xc76c51a30654be30;
  0xd192e819d6ef5218; 0xd69906245565a910; 0xf40e35855771202a; 0x106aa07032bbd1b8;
  0x19a4c116b8d2d0c8; 0x1e376c085141ab53; 0x2748774cdf8eeb99; 0x34b0bcb5e19b48a8;
  0x391c0cb3c5c95a63; 0x4ed8aa4ae3418acb; 0x5b9cca4f7763e373; 0x682e6ff3d6b2b8a3;
  0x748f82ee5defb2fc; 0x78a5636f43172f60; 0x84c87814a1f0ab72; 0x8cc702081a6439ec;
  0x90befffa23631e28; 0xa4506cebde82bde9; 0xbef9a3f7b2c67915; 0xc67178f2e372532b;
  0xca273eceea26619c; 0xd186b8c721c0c207; 0xeada7dd6cde0eb1e; 0xf57d4f7fee6ed178;
  0x06f067aa72176fba; 0x0a637dc5a2c898a6; 0x113f9804bef90dae; 0x1b710b35131c471b;
  0x28db77f523047d84; 0x32caab7b40c72493; 0x3c9ebe0a15c9bebc; 0x431d67c49c100d4c;
  0x4cc5d4becb3e42b6; 0x597f299cfc657e2a; 0x5fcb6fab3ad6faec; 0x6c44198c4a475817 ].

(** [sha512.Size] and [sha512.Size384], in bytes *)
Definition Size : Z := 64.
Definition Size384 : Z := 48.

Definition digest := sha2.digest.

Definition Write : digest -> list byte -> digest :=
  sha2.Write 64 _K 28 34 39 14 18 41 1 8 7 19 61 6.
Definition checkSum : digest -> list byte :=
  sha2.checkSum 64 _K 28 34 39 14 18 41 1 8 7 19 61 6.

(** [sha512.New()] *)
Definition New : digest :=
  sha2.mkDigest
    (sha2.mkRegs 0x6a09e667f3bcc908 0xbb67ae8584caa73b
                 0x3c6ef372fe94f82b 0xa54ff53a5f1d36f1
                 0x510e527fade682d1 0x9b05688c2b3e6c1f
                 0x1f83d9abfb41bd6b 0x5be0cd19137e2179) [] 0.

(** [sha512.New384()] *)
Definition New384 : digest :=
  sha2.mkDigest
    (sha2.mkRegs 0xcbbb9d5dc1059ed8 0x629a292a367cd507
                 0x9159015a3070dd17 0x152fecd8f70e5939
                 0x67332667ffc00b31 0x8eb44a8768581511
                 0xdb0c2e0d64f98fa7 0x47b5481dbefa4fa4) [] 0.

(** [sha512.Sum512(data)] *)
Definition Sum512 (data : list byte) : list byte :=
  checkSum (Write New data).

(** [sha512.Sum384(data)]: [copy(sum[:], hash[:Size384])] *)
Definition Sum384 (data : list byte) : list byte :=
  firstn (Z.to_nat Size384) (checkSum (Write New384 data)).

End sha512.

Module sha256.

(** The table [_K]: the leading 32 bits of the fractional parts of the
    cube roots of the first 64 primes, that is, the upper halves of the
    first 64 round constants of [crypto/sha512]. *)
Definition _K : list Z :=
  Eval vm_compute in map (fun k => Z.shiftr k 32) (firstn 64 sha512._K).

Definition Size : Z := 32.

Definition digest := sha2.digest.

Definition block := sha2.block 32 _K 2 13 22 6 11 25 7 18 3 17 19 10.
Definition Write : digest -> list byte -> digest :=
  sha2.Write 32 _K 2 13 22 6 11 25 7 18 3 17 19 10.
Definition Sum : digest -> list byte -> list byte :=
  sha2.Sum 32 _K 2 13 22 6 11 25 7 18 3 17 19 10.

(** [sha256.New()] *)
Definition New : digest :=
  sha2.mkDigest
    (sha2.mkRegs 0x6a09e667 0xbb67ae85 0x3c6ef372 0xa54ff53a
                 0x510e527f 0x9b05688c 0x1f83d9ab 0x5be0cd19) [] 0.

(** [sha256.Sum256(data)]: [d.Reset(); d.Write(data); d.checkSum()] *)
Definition Sum256 (data : list byte) : list byte :=
  Sum (Write New data) [].

End sha256.

(* ------------------------------------------------------------------ *)
(** *** encoding/base64: [base64.StdEncoding.DecodeString]

    The standard alphabet with [=] padding, not strict.  As in Go's
    [decodeQuantum], carriage returns and line feeds are skipped, a
    quantum of four symbols yields three bytes, a final quantum padded
    with [==] or [=] yields one or two, and everything else is a
    [CorruptInputError]. *)

Module base64.

Definition encodeStd : list ascii :=
  list_ascii_of_string
    "ABCDEFGHIJKLMNOPQRSTUVWXYZabcdefghijklmnopqrstuvwxyz0123456789+/".

Fixpoint index_of (c : ascii) (l : list ascii) (i : Z) : option Z :=
  match l with
  | [] => None
  | a :: l' => if Ascii.eqb a c then Some i else index_of c l' (i + 1)
  end.

(** [enc.decodeMap[in]], [None] standing for the entry [0xff] *)
Definition decodeMap (c : ascii) : option Z := index_of c encodeStd 0.

Definition is_newline (c : ascii) : bool :=
  Ascii.eqb c "010" || Ascii.eqb c "013".

Definition padChar : ascii := "=".

Fixpoint skip_newlines (src : list ascii) : list ascii :=
  match src with
  | c :: rest => if is_newline c then skip_newlines rest else src
  | [] => []
  end.

(** [val := dbuf[0]<<18 | dbuf[1]<<12 | dbuf[2]<<6 | dbuf[3]] and its
    first [dlen-1] bytes *)
Definition quantum_bytes (dbuf : list Z) : list byte :=
  let val := Z.lor (Z.lor (Z.lor (Z.shiftl (nth 0 dbuf 0) 18)
                                 (Z.shiftl (nth 1 dbuf 0) 12))
                          (Z.shiftl (nth 2 dbuf 0) 6))
                   (nth 3 dbuf 0) in
  firstn (List.length dbuf - 1)
    [byte_of_Z (Z.shiftr val 16); byte_of_Z (Z.shiftr val 8); byte_of_Z val].

(** [dbuf] holds the symbols of the quantum read so far ([j] of them). *)
Fixpoint decode (src : list ascii) (dbuf : list Z) : option (list byte) :=
  match src with
  | [] =>
      match dbuf with
      | [] => Some []          (* j == 0 *)
      | _ => None              (* padding is required: corrupt input *)
      end
  | c :: rest =>
      match decodeMap c with
      | Some out =>
          let dbuf' := dbuf ++ [out] in
          if (List.length dbuf' =? 4)%nat
          then option_map (app (quantum_bytes dbuf')) (decode rest [])
          else decode rest dbuf'
      | None =>
          if is_newline c then decode rest dbuf
          else if negb (Ascii.eqb c padChar) then None
          else
            match dbuf with
            | [_; _] =>
                (* "==" is expected, the first "=" is already consumed *)
                match skip_newlines rest with
                | [] => None
                | c2 :: rest2 =>
                    if negb (Ascii.eqb c2 padChar) then None
                    else match skip_newlines rest2 with
                         | [] => Some (quantum_bytes dbuf)
                         | _ => None      (* trailing garbage *)
                         end
                end
            | [_; _; _] =>
                match skip_newlines rest with
                | [] => Some (quantum_bytes dbuf)
                | _ => None               (* trailing garbage *)
                end
            | _ => None                   (* incorrect padding *)
            end
      end
  end.

(** [None] is a non-nil [err]. *)
Definition DecodeString (s : string) : option (list byte) :=
  decode (list_ascii_of_string s) [].

End base64.

(* ------------------------------------------------------------------ *)
(** *** strings *)

Module strings.

(** [strings.Index] and the two slices around the match, for a
    one-byte separator *)
Fixpoint cut (sep : ascii) (s : string) : option (string * string) :=
  match s with
  | EmptyString => None
  | String c s' =>
      if Ascii.eqb c sep then Some (EmptyString, s')
      else match cut sep s' with
           | Some (a, b) => Some (String c a, b)
           | None => None
           end
  end.

Fixpoint split_loop (n : nat) (sep : ascii) (s : string) : list string :=
  match n with
  | O => [s]
  | S n' =>
      match cut sep s with
      | None => [s]
      | Some (a, rest) => a :: split_loop n' sep rest
      end
  end.

(** [strings.SplitN(s, sep, n)] ([genSplit]) for a one-byte [sep] and
    [n >= 0]: at most [n] substrings, the last one the unsplit rest. *)
Definition SplitN (s : string) (sep : ascii) (n : nat) : list string :=
  match Nat.min n (String.length s + 1) with
  | O => []
  | S m => split_loop m sep s
  end.

End strings.

(* ------------------------------------------------------------------ *)
(** *** regexp, for the patterns [^[class]{n}$] the hashers compile *)

Module regexp.

Record Regexp := MustCompile { class : ascii -> bool; count : nat }.

(** the class [[a-f0-9]] *)
Definition lower_hex (c : ascii) : bool :=
  let n := nat_of_ascii c in
  ((97 <=? n) && (n <=? 102) || (48 <=? n) && (n <=? 57))%nat.

Fixpoint match_repeat (cls : ascii -> bool) (n : nat) (s : string) : bool :=
  match n, s with
  | O, EmptyString => true
  | S n', String c s' => cls c && match_repeat cls n' s'
  | _, _ => false
  end.

Definition MatchString (re : Regexp) (s : string) : bool :=
  match_repeat (class re) (count re) s.

End regexp.

(* ================================================================== *)
(** ** Errors and log lines *)

(** An argument of [fmt.Errorf] or of a logger's [Printf]. *)
Inductive fmtArg :=
| ArgInt (z : Z)
| ArgStr (s : string).

(** The [error] values this code creates or receives. *)
Inductive error :=
| errors_New (text : string)
| fmt_Errorf (format : string) (args : list fmtArg)
| grpc_status_Error (code : Z) (msg : string)
| base64_CorruptInputError
| io_EOF.

(** [err == io.EOF] *)
Definition is_EOF (e : error) : bool :=
  match e with io_EOF => true | _ => false end.

Inductive logArg :=
| LInt (z : Z)
| LStr (s : string)
| LErr (e : option error).

(** One call of [Logger.Printf]. *)
Record LogLine := Printf { format : string; args : list logArg }.

(* ================================================================== *)
(** ** package hashing *)

Module hashing.

(** [pb.DigestFunction_Value], an [int32] enum of the remote execution
    API. *)
Definition DigestFunction_Value := Z.
Definition DigestFunction_UNKNOWN : DigestFunction_Value := 0.
Definition DigestFunction_SHA256 : DigestFunction_Value := 1.
Definition DigestFunction_SHA1 : DigestFunction_Value := 2.
Definition DigestFunction_MD5 : DigestFunction_Value := 3.
Definition DigestFunction_SHA384 : DigestFunction_Value := 5.
Definition DigestFunction_SHA512 : DigestFunction_Value := 6.

(** [hash.Hash], as far as this code uses it: a running state with
    [Write] and [Sum]. *)
Record hash_Hash := mkHash {
  state : sha2.digest;
  Write : sha2.digest -> list byte -> sha2.digest;
  Sum : sha2.digest -> list byte -> list byte }.

(** The [Hasher] interface: the method set of [sha384Hasher] and
    [sha512Hasher]. *)
Record Hasher := mkHasher {
  New : hash_Hash;
  Hash : list byte -> string;
  DigestFunction : DigestFunction_Value;
  Dir : string;
  Empty : string;
  Size : Z;
  Validate : string -> option error;
  ValidateDigest : string -> Z -> option error }.

(* ---------------- sha386.go ---------------- *)

Definition sha384Regex : regexp.Regexp :=
  regexp.MustCompile regexp.lower_hex 96.

Definition sha384_New : hash_Hash :=
  mkHash sha512.New384 sha512.Write
    (fun d b => b ++ firstn (Z.to_nat sha512.Size384) (sha512.checkSum d)).

Definition sha384_Hash (data : list byte) : string :=
  let sum := sha512.Sum384 data in
  hex.EncodeToString sum.

Definition sha384_DigestFunction : DigestFunction_Value :=
  DigestFunction_SHA384.

Definition sha384_Dir : string := "sha384".

Definition sha384_Empty : string :=
  "cf83e1357eefb8bdf1542850d66d8007d620e4050b5715dc83f4a921d36ce9ce47d0d13c5d85f2b0ff8318d2877eec2f63b931bd47417a81a538327af927da3e".

Definition sha384_Size : Z := sha512.Size384.

Definition sha384_Validate (value : string) : option error :=
  if negb (sha384_Size * 2 =? len value) then
    Some (fmt_Errorf "Invalid sha384 hash length %d: expected %d"
            [ArgInt (len value); ArgInt sha384_Size])
  else if negb (regexp.MatchString sha384Regex value) then
    Some (errors_New ("Malformed sha384 hash " ++ value)%string)
  else None.

Definition sha384_ValidateDigest (hash : string) (size : Z) : option error :=
  if size =? 0 then
    if String.eqb hash sha384_Empty then None
    else Some (fmt_Errorf "Invalid zero-length %s hash"
                 [ArgInt sha384_DigestFunction])
  else sha384_Validate hash.

Definition sha384Hasher : Hasher :=
  mkHasher sha384_New sha384_Hash sha384_DigestFunction sha384_Dir
           sha384_Empty sha384_Size sha384_Validate sha384_ValidateDigest.

(* ---------------- sha512.go ---------------- *)

Definition sha512Regex : regexp.Regexp :=
  regexp.MustCompile regexp.lower_hex 128.

Definition sha512_New : hash_Hash :=
  mkHash sha512.New sha512.Write (fun d b => b ++ sha512.checkSum d).

Definition sha512_Hash (data : list byte) : string :=
  let sum := sha512.Sum512 data in
  hex.EncodeToString sum.

Definition sha512_DigestFunction : DigestFunction_Value :=
  DigestFunction_SHA512.

Definition sha512_Dir : string := "sha512".

Definition sha512_Empty : string :=
  "cf83e1357eefb8bdf1542850d66d8007d620e4050b5715dc83f4a921d36ce9ce47d0d13c5d85f2b0ff8318d2877eec2f63b931bd47417a81a538327af927da3e".

Definition sha512_Size : Z := sha512.Size.

Definition sha512_Validate (value : string) : option error :=
  if negb (sha512_Size * 2 =? len value) then
    Some (fmt_Errorf "Invalid sha512 hash length %d: expected %d"
            [ArgInt (len value); ArgInt sha512_Size])
  else if negb (regexp.MatchString sha512Regex value) then
    Some (errors_New ("Malformed sha512 hash " ++ value)%string)
  else None.

Definition sha512_ValidateDigest (hash : string) (size : Z) : option error :=
  if size =? 0 then
    if String.eqb hash sha512_Empty then None
    else Some (fmt_Errorf "Invalid zero-length %s hash"
                 [ArgInt sha512_DigestFunction])
  else sha512_Validate hash.

Definition sha512Hasher : Hasher :=
  mkHasher sha512_New sha512_Hash sha512_DigestFunction sha512_Dir
           sha512_Empty sha512_Size sha512_Validate sha512_ValidateDigest.

(** The hashers the two [init] functions pass to [register]. *)
Definition registered : list Hasher := [sha384Hasher; sha512Hasher].

End hashing.

(* ================================================================== *)
(** ** package crypto: the identifiers of the hash functions *)

Module crypto.
(** [crypto.Hash], a [uint]: [MD4 Hash = 1 + iota], [MD5], [SHA1],
    [SHA224], [SHA256], [SHA384], [SHA512], ... *)
Definition Hash := Z.
Definition MD5 : Hash := 2.
Definition SHA1 : Hash := 3.
Definition SHA256 : Hash := 5.
Definition SHA384 : Hash := 6.
Definition SHA512 : Hash := 7.
End crypto.

(* ================================================================== *)
(** ** package cache *)

Module cache.

Inductive EntryKind := AC | CAS | RAW.

Definition EntryKind_eqb (a b : EntryKind) : bool :=
  match a, b with
  | AC, AC | CAS, CAS | RAW, RAW => true
  | _, _ => false
  end.

Definition String (e : EntryKind) : string :=
  if EntryKind_eqb e AC then "ac"
  else if EntryKind_eqb e CAS then "cas"
  else "raw".

Definition DirName (e : EntryKind) : string :=
  if EntryKind_eqb e AC then "ac.v2"
  else if EntryKind_eqb e CAS then "cas.v2"
  else "raw.v2".

(** [TransformActionCacheKey]: the new key and the lines written to
    [logger]. *)
Definition TransformActionCacheKey (key instance : string)
  : string * list LogLine :=
  if String.eqb instance EmptyString then (key, [])
  else
    let h := sha256.New in
    let h := sha256.Write h (list_byte_of_string key) in
    let h := sha256.Write h (list_byte_of_string instance) in
    let b := sha256.Sum h [] in
    let newKey := hex.EncodeToString b in
    (newKey,
     [Printf "REMAP AC HASH %s : %s => %s"
        [LStr key; LStr instance; LStr newKey]]).

Definition LookupKey (kind : EntryKind) (hash : string) : string :=
  (String kind ++ "/" ++ hash)%string.

(** [Error], the structured error of cache implementations, and its
    method [Error()]. *)
Record Error := mkError { Code : Z; Text : string }.

Definition Error_Error (e : Error) : string := Text e.

(** The map literal [EmptyHashes], in the order of the source. *)
Definition EmptyHashes : list (crypto.Hash * string) :=
  [ (crypto.MD5, "d41d8cd98f00b204e9800998ecf8427e");
    (crypto.SHA1, "da39a3ee5e6b4b0d3255bfef95601890afd80709");
    (crypto.SHA256,
     "e3b0c44298fc1c149afbf4c8996fb92427ae41e4649b934ca495991b7852b855");
    (crypto.SHA512,
     "cf83e1357eefb8bdf1542850d66d8007d620e4050b5715dc83f4a921d36ce9ce47d0d13c5d85f2b0ff8318d2877eec2f63b931bd47417a81a538327af927da3e") ].

(** [m[k]] on a [map[crypto.Hash]string]: the zero value, the empty
    string, for a key that is not in the map. *)
Definition map_index (m : list (crypto.Hash * string)) (k : crypto.Hash)
  : string :=
  match find (fun e => fst e =? k) m with
  | Some e => snd e
  | None => EmptyString
  end.

Definition IsHashTypeSupported (hashType : string) : bool :=
  if String.eqb hashType "md5" || String.eqb hashType "sha1"
     || String.eqb hashType "sha256" || String.eqb hashType "sha512"
  then true
  else false.

Definition GetHashType (hash : string) : crypto.Hash :=
  if len hash =? 32 then crypto.MD5
  else if len hash =? 40 then crypto.SHA1
  else if len hash =? 64 then crypto.SHA256
  else if len hash =? 128 then crypto.SHA512
  else 0.

Definition IsEmptyHash (hashType : crypto.Hash) (hash : string) : bool :=
  String.eqb hash (map_index EmptyHashes hashType).

End cache.

(* ================================================================== *)
(** ** The protocol types the asset server handles *)

Module codes.
Definition OK : Z := 0.
Definition InvalidArgument : Z := 3.
Definition NotFound : Z := 5.
End codes.

Module status.
Record Status := mkStatus { Code : Z; Message : string }.
End status.

Module pb.
Record Digest := mkDigest { Hash : string; SizeBytes : Z }.
End pb.

Module asset.

Record Qualifier := mkQualifier { Name : string; Value : string }.

(** Qualifiers are pointers: [None] is a [nil] entry. *)
Record FetchBlobRequest := mkRequest {
  Uris : list string;
  Qualifiers : list (option Qualifier);
  DigestFunction : hashing.DigestFunction_Value }.

Record FetchBlobResponse := mkResponse {
  rStatus : option status.Status;
  rUri : string;
  rBlobDigest : option pb.Digest;
  rDigestFunction : hashing.DigestFunction_Value }.

(** The generated getters accept a [nil] receiver. *)
Definition GetDigestFunction (req : option FetchBlobRequest)
  : hashing.DigestFunction_Value :=
  match req with
  | Some r => DigestFunction r
  | None => hashing.DigestFunction_UNKNOWN
  end.

Definition GetQualifiers (req : option FetchBlobRequest)
  : list (option Qualifier) :=
  match req with Some r => Qualifiers r | None => [] end.

Definition GetUris (req : option FetchBlobRequest) : list string :=
  match req with Some r => Uris r | None => [] end.

End asset.

Module io.
(** An [io.ReadCloser]: the bytes it yields, and the error (if any)
    that ends the stream instead of a clean end of file. *)
Record ReadCloser := mkReader { content : list byte; failure : option error }.

(** [io.NopCloser(bytes.NewReader(data))] *)
Definition NopCloser_NewReader (data : list byte) : ReadCloser :=
  mkReader data None.

Definition ReadAll (r : ReadCloser) : list byte * option error :=
  (content r, failure r).
End io.

Module url.
Record URL := mkURL { Scheme : string }.
End url.

Module http.
Record Response := mkResponse {
  Status : string;
  StatusCode : Z;
  ContentLength : Z;
  Body : io.ReadCloser }.
End http.

(** [in_order s l]: the elements of [s] occur in [l], in the order of
    [l]. *)
Inductive in_order {A : Type} : list A -> list A -> Prop :=
| in_order_nil (l : list A) : in_order [] l
| in_order_skip (x : A) (s l : list A) :
    in_order s l -> in_order s (x :: l)
| in_order_take (x : A) (s l : list A) :
    in_order s l -> in_order (x :: s) (x :: l).

(* ================================================================== *)
(** ** package server: [FetchBlob] and [fetchItem] *)

Module server.

(** What a call leaves behind, in order. *)
Inductive Event :=
| EvHashingGet (df : hashing.DigestFunction_Value)
| EvErrorLog (l : LogLine)
| EvAccessLog (l : LogLine)
| EvContains (kind : cache.EntryKind) (hash : string) (size : Z)
| EvCacheGet (kind : cache.EntryKind) (hash : string) (size offset : Z)
| EvPut (kind : cache.EntryKind) (hash : string) (size : Z)
        (rc : io.ReadCloser)
| EvHttpGet (uri : string).

(** Everything [FetchBlob] and [fetchItem] call that is not in their
    source file: the hasher registry of package [hashing] ([Get] returns
    a hasher, possibly [nil], and an error), [url.Parse], [http.Get] and
    the three operations of [s.cache].  [W] is the state of the outside
    world (the cache contents, the network). *)
Record Env (W : Type) := mkEnv {
  hashing_Get : hashing.DigestFunction_Value ->
                option hashing.Hasher * option error;
  hashing_DigestFunction : string -> hashing.DigestFunction_Value;
  url_Parse : string -> url.URL + error;
  http_Get : string -> W -> (http.Response + error) * W;
  cache_Contains : cache.EntryKind -> option hashing.Hasher -> string ->
                   Z -> W -> (bool * Z) * W;
  cache_Get : cache.EntryKind -> option hashing.Hasher -> string ->
              Z -> Z -> W -> (option io.ReadCloser * Z * option error) * W;
  cache_Put : cache.EntryKind -> option hashing.Hasher -> string ->
              Z -> io.ReadCloser -> W -> option error * W }.

Arguments hashing_Get {W}.
Arguments hashing_DigestFunction {W}.
Arguments url_Parse {W}.
Arguments http_Get {W}.
Arguments cache_Contains {W}.
Arguments cache_Get {W}.
Arguments cache_Put {W}.

Record State (W : Type) := mkState { world : W; trace : list Event }.
Arguments mkState {W}.
Arguments world {W}.
Arguments trace {W}.

(** A call either returns or panics. *)
Inductive Result (A : Type) :=
| Returns (a : A)
| Panics (msg : string).
Arguments Returns {A}.
Arguments Panics {A}.

Definition M (W A : Type) : Type := State W -> Result A * State W.

Definition ret {W A} (a : A) : M W A := fun st => (Returns a, st).

Definition bind {W A B} (c : M W A) (k : A -> M W B) : M W B :=
  fun st =>
    match c st with
    | (Returns a, st') => k a st'
    | (Panics msg, st') => (Panics msg, st')
    end.

Definition panic {W A} (msg : string) : M W A :=
  fun st => (Panics msg, st).

Definition emit {W} (e : Event) : M W unit :=
  fun st => (Returns tt, mkState (world st) (trace st ++ [e])).

(** a call into the outside world, recorded as [e] *)
Definition call {W A} (e : Event) (f : W -> A * W) : M W A :=
  fun st =>
    let '(a, w) := f (world st) in
    (Returns a, mkState w (trace st ++ [e])).

Declare Scope go_scope.
Delimit Scope go_scope with go.
Notation "x <- c ;; k" := (bind c (fun x => k))
  (at level 61, c at next level, right associativity) : go_scope.
Notation "' p <- c ;; k" := (bind c (fun v => let 'p := v in k))
  (at level 61, p pattern, c at next level, right associativity) : go_scope.
Notation "c ;; k" := (bind c (fun _ => k))
  (at level 61, right associativity) : go_scope.

(** The outcome of a loop body: [return r], or go on to the next
    iteration with the variables [v]. *)
Inductive Flow (R V : Type) :=
| Return (r : R)
| Continue (v : V).
Arguments Return {R V}.
Arguments Continue {R V}.

(** [for _, x := range l { body }] *)
Fixpoint for_range {W X R V} (body : X -> V -> M W (Flow R V))
    (l : list X) (v : V) : M W (Flow R V) :=
  match l with
  | [] => ret (Continue v)
  | x :: l' =>
      bind (body x v) (fun fl =>
        match fl with
        | Return r => ret (Return r)
        | Continue v' => for_range body l' v'
        end)
  end.

(** A method call on a [Hasher] interface value: a [nil] interface
    panics. *)
Definition method {W A} (hasher : option hashing.Hasher)
    (f : hashing.Hasher -> A) : M W A :=
  match hasher with
  | Some h => ret (f h)
  | None => panic "invalid memory address or nil pointer dereference"
  end.

(** [parts[i]] *)
Definition index {W} (parts : list string) (i : nat) : M W string :=
  match nth_error parts i with
  | Some p => ret p
  | None => panic "index out of range"
  end.

Definition dq : string := String (ascii_of_nat 34) EmptyString.

Definition errNilFetchBlobRequest : error :=
  grpc_status_Error codes.InvalidArgument
    "expected a non-nil *FetchBlobRequest".

(** what [fetchItem] returns when it fails: [false], the empty string
    and [int64(-1)] *)
Definition notOK : bool * string * Z := (false, EmptyString, -1).

Section Server.
Context {W : Type} (env : Env W).
Local Open Scope go_scope.

Definition errorLogger_Printf (fmt : string) (a : list logArg)
  : M W unit := emit (EvErrorLog (Printf fmt a)).

Definition accessLogger_Printf (fmt : string) (a : list logArg)
  : M W unit := emit (EvAccessLog (Printf fmt a)).

Definition hashingGet (df : hashing.DigestFunction_Value)
  : M W (option hashing.Hasher * option error) :=
  emit (EvHashingGet df) ;; ret (hashing_Get env df).

(** the response of a qualifier that resolved from the CAS *)
Definition resolved (df : hashing.DigestFunction_Value)
    (hash : string) (size : Z) : asset.FetchBlobResponse :=
  asset.mkResponse (Some (status.mkStatus codes.OK EmptyString)) EmptyString
    (Some (pb.mkDigest hash size)) df.

Definition nilQualifier : asset.FetchBlobResponse :=
  asset.mkResponse
    (Some (status.mkStatus codes.InvalidArgument
             "unexpected nil qualifier in FetchBlobRequest"))
    EmptyString None hashing.DigestFunction_UNKNOWN.

Definition notFound : asset.FetchBlobResponse :=
  asset.mkResponse (Some (status.mkStatus codes.NotFound EmptyString)) EmptyString
    None hashing.DigestFunction_UNKNOWN.

(** The variables the qualifier loop assigns: [hash] and [hasher]. *)
Definition Vars : Type := string * option hashing.Hasher.

(** The body of [for _, q := range req.GetQualifiers()]. *)
Definition qualifier_body (q : option asset.Qualifier) (v : Vars)
  : M W (Flow asset.FetchBlobResponse Vars) :=
  match q with
  | None => ret (Return nilQualifier)
  | Some q =>
      if String.eqb (asset.Name q) "checksum.sri" then
        let parts := strings.SplitN (asset.Value q) "-" 2 in
        p0 <- index parts 0 ;;
        b64hash <- index parts 1 ;;
        let df := hashing_DigestFunction env p0 in
        match base64.DecodeString b64hash with
        | None =>
            errorLogger_Printf
              ("failed to base64 decode " ++ dq ++ "%s" ++ dq ++ ": %v")
              [LStr b64hash; LErr (Some base64_CorruptInputError)] ;;
            ret (Continue v)
        | Some decoded =>
            let hash := hex.EncodeToString decoded in
            '(hasher, err) <- hashingGet df ;;
            match err with
            | Some _ =>
                errorLogger_Printf
                  ("Unknown digest function " ++ dq ++ "%s" ++ dq ++ ": %v")
                  [LInt df; LErr err] ;;
                ret (Continue (hash, hasher))
            | None =>
                verr <- method hasher (fun h => hashing.Validate h hash) ;;
                match verr with
                | Some _ =>
                    errorLogger_Printf
                      ("Invalid " ++ dq ++ "%s" ++ dq ++ " hash " ++ dq
                         ++ "%s" ++ dq ++ ": %v")
                      [LInt df; LStr b64hash; LErr verr] ;;
                    ret (Continue (hash, hasher))
                | None =>
                    '(found, size) <-
                      call (EvContains cache.CAS hash (-1))
                        (cache_Contains env cache.CAS hasher hash (-1)) ;;
                    if negb found then ret (Continue (hash, hasher))
                    else if size <? 0 then
                      (* We don't know the size yet. *)
                      '(_, actualSize, gerr) <-
                        call (EvCacheGet cache.CAS hash (-1) 0)
                          (cache_Get env cache.CAS hasher hash (-1) 0) ;;
                      if (match gerr with Some _ => true | None => false end)
                         || (actualSize <? 0)
                      then
                        errorLogger_Printf
                          "failed to get CAS %s from proxy backend size: %d err: %v"
                          [LStr hash; LInt actualSize; LErr gerr] ;;
                        ret (Continue (hash, hasher))
                      else ret (Return (resolved df hash actualSize))
                    else ret (Return (resolved df hash size))
                end
            end
        end
      else ret (Continue v)
  end.

Definition fetchItem (hasher : option hashing.Hasher)
    (uri expectedHash : string) : M W (bool * string * Z) :=
  match url_Parse env uri with
  | inr err =>
      errorLogger_Printf "unable to parse URI: %s err: %v"
        [LStr uri; LErr (Some err)] ;;
      ret notOK
  | inl u =>
      if negb (String.eqb (url.Scheme u) "http")
         && negb (String.eqb (url.Scheme u) "https")
      then
        errorLogger_Printf "unsupported URI: %s" [LStr uri] ;;
        ret notOK
      else
        r <- call (EvHttpGet uri) (http_Get env uri) ;;
        match r with
        | inr err =>
            errorLogger_Printf "failed to get URI: %s err: %v"
              [LStr uri; LErr (Some err)] ;;
            ret notOK
        | inl resp =>
            let rc := http.Body resp in
            accessLogger_Printf "GRPC ASSET FETCH %s %s"
              [LStr uri; LStr (http.Status resp)] ;;
            if (http.StatusCode resp <? 200)
               || (http.StatusCode resp >=? 300)
            then ret notOK
            else
              let expectedSize := http.ContentLength resp in
              known <-
                (if String.eqb expectedHash EmptyString || (expectedSize <? 0)
                 then
                   (* We can't call Put until we know the hash and size. *)
                   let '(data, rerr) := io.ReadAll (http.Body resp) in
                   match rerr with
                   | Some _ =>
                       errorLogger_Printf "failed to read data: %v"
                         [LStr uri] ;;
                       ret (Return notOK)
                   | None =>
                       let expectedSize := Z.of_nat (List.length data) in
                       hashStr <-
                         method hasher (fun h => hashing.Hash h data) ;;
                       if negb (String.eqb expectedHash EmptyString)
                          && negb (String.eqb hashStr expectedHash)
                       then
                         errorLogger_Printf
                           "URI data has hash %s, expected %s"
                           [LStr hashStr; LStr expectedHash] ;;
                         ret (Return notOK)
                       else
                         ret (Continue
                                (hashStr, expectedSize,
                                 io.NopCloser_NewReader data))
                   end
                 else ret (Continue (expectedHash, expectedSize, rc))) ;;
              match known with
              | Return r => ret r
              | Continue (expectedHash, expectedSize, rc) =>
                  perr <-
                    call (EvPut cache.CAS expectedHash expectedSize rc)
                      (cache_Put env cache.CAS hasher expectedHash
                         expectedSize rc) ;;
                  match perr with
                  | Some e =>
                      if negb (is_EOF e) then
                        errorLogger_Printf "failed to Put %s: %v"
                          [LStr expectedHash; LErr perr] ;;
                        ret notOK
                      else ret (true, expectedHash, expectedSize)
                  | None => ret (true, expectedHash, expectedSize)
                  end
              end
        end
  end.

(** The body of [for _, uri := range req.GetUris()]. *)
Definition uri_body (hasher : option hashing.Hasher) (hash : string)
    (uri : string) (_ : unit) : M W (Flow asset.FetchBlobResponse unit) :=
  '(ok, actualHash, size) <- fetchItem hasher uri hash ;;
  if ok : bool then
    df <- method hasher hashing.DigestFunction ;;
    ret (Return (asset.mkResponse (Some (status.mkStatus codes.OK EmptyString))
                   uri (Some (pb.mkDigest actualHash size)) df))
  else ret (Continue tt).

(** The first statement of [FetchBlob]: the request's digest function
    is looked up, a failure is only logged. *)
Definition digest_function_hint (req : option asset.FetchBlobRequest)
  : M W (option hashing.Hasher) :=
  '(hasher, err) <- hashingGet (asset.GetDigestFunction req) ;;
  match err with
  | Some _ =>
      errorLogger_Printf "Unknown digest function %d: %v"
        [LInt (asset.GetDigestFunction req); LErr err] ;;
      ret hasher
  | None => ret hasher
  end.

Definition try_qualifiers (qs : list (option asset.Qualifier)) (v : Vars)
  : M W (Flow asset.FetchBlobResponse Vars) :=
  for_range qualifier_body qs v.

Definition try_uris (hasher : option hashing.Hasher) (hash : string)
    (uris : list string) : M W (Flow asset.FetchBlobResponse unit) :=
  for_range (uri_body hasher hash) uris tt.

Definition FetchBlob (req : option asset.FetchBlobRequest)
  : M W (option asset.FetchBlobResponse * option error) :=
  let hash := EmptyString in
  hasher <- digest_function_hint req ;;
  match req with
  | None => ret (None, Some errNilFetchBlobRequest)
  | Some _ =>
      q <- try_qualifiers (asset.GetQualifiers req) (hash, hasher) ;;
      match q with
      | Return resp => ret (Some resp, None)
      | Continue (hash, hasher) =>
          (* Cache miss.  See if we can download one of the URIs. *)
          u <- try_uris hasher hash (asset.GetUris req) ;;
          match u with
          | Return resp => ret (Some resp, None)
          | Continue _ => ret (Some notFound, None)
          end
      end
  end.

(** The requests and the writes to the cache that a trace records. *)
Definition http_requests (t : list Event) : list string :=
  flat_map (fun e => match e with EvHttpGet uri => [uri] | _ => [] end) t.

Definition cache_writes (t : list Event) : list (string * Z) :=
  flat_map (fun e => match e with
                     | EvPut _ hash size _ => [(hash, size)]
                     | _ => []
                     end) t.

End Server.

End server.

(* ================================================================== *)
(** ** A concrete environment

    Used to run [FetchBlob] on concrete requests. *)

Module fixture.

(** Modelled from the spec: the registry of package [hashing]
    ([register], [Get], [DigestFunction]), whose file is not among the
    sources.  "Holds all digest-function implementations, keyed by enum
    id and by canonical name"; [Get] fails with "unsupported digest
    function" if the id is absent, the lookup by name yields the zero
    value.  The registered hashers are the two of [hashing.registered],
    their canonical names the ones [Dir] returns. *)
Definition Get (df : hashing.DigestFunction_Value)
  : option hashing.Hasher * option error :=
  match find (fun h => hashing.DigestFunction h =? df) hashing.registered with
  | Some h => (Some h, None)
  | None => (None, Some (fmt_Errorf "unsupported digest function %d"
                           [ArgInt df]))
  end.

Definition DigestFunction (name : string) : hashing.DigestFunction_Value :=
  match find (fun h => String.eqb (hashing.Dir h) name) hashing.registered with
  | Some h => hashing.DigestFunction h
  | None => hashing.DigestFunction_UNKNOWN
  end.

(** A stand-in for [url.Parse]: the scheme is what precedes the first
    colon. *)
Definition Parse (uri : string) : url.URL + error :=
  match strings.cut ":" uri with
  | Some (scheme, _) => inl (url.mkURL scheme)
  | None => inl (url.mkURL EmptyString)
  end.

(** The outside world: the cache as an index from hash to size, and the
    blob the mirror serves at the moment. *)
Record World := mkWorld { cas : list (string * Z); mirror : list byte }.

Definition lookup (hash : string) (w : World) : option Z :=
  option_map snd (find (fun e => String.eqb (fst e) hash) (cas w)).

(** Modelled from the spec: the cache capability [s.cache], whose
    implementation is not among the sources: "an opaque Cache capability
    offering Put, Get, Contains keyed by entry-kind + hasher + hash +
    size"; [Contains] answers with size [-1] for "exists but size
    unknown".  This one indexes what it is given: [Put] records the hash
    and the size it is called with and returns [nil]. *)

Definition Contains (_ : cache.EntryKind) (_ : option hashing.Hasher)
    (hash : string) (_ : Z) (w : World) : (bool * Z) * World :=
  match lookup hash w with
  | Some size => ((true, size), w)
  | None => ((false, -1), w)
  end.

Definition CacheGet (_ : cache.EntryKind) (_ : option hashing.Hasher)
    (hash : string) (_ _ : Z) (w : World)
  : (option io.ReadCloser * Z * option error) * World :=
  match lookup hash w with
  | Some size => ((Some (io.mkReader [] None), size, None), w)
  | None => ((None, -1, Some (errors_New "not found")), w)
  end.

Definition Put (_ : cache.EntryKind) (_ : option hashing.Hasher)
    (hash : string) (size : Z) (_ : io.ReadCloser) (w : World)
  : option error * World :=
  (None, mkWorld ((hash, size) :: cas w) (mirror w)).

Definition uri_blob : string := "http://mirror.test/blob.tar.gz".
Definition uri_stream : string := "http://mirror.test/stream.tar.gz".
Definition uri_404 : string := "http://mirror.test/404.tar.gz".

(** The mirror serves its blob with and without a declared length;
    everything else is a 404. *)
Definition serve (uri : string) (w : World) : (http.Response + error) * World :=
  if String.eqb uri uri_blob then
    (inl (http.mkResponse "200 OK" 200 (Z.of_nat (List.length (mirror w)))
            (io.mkReader (mirror w) None)), w)
  else if String.eqb uri uri_stream then
    (inl (http.mkResponse "200 OK" 200 (-1) (io.mkReader (mirror w) None)), w)
  else
    (inl (http.mkResponse "404 Not Found" 404 10
            (io.mkReader (list_byte_of_string "Not found") None)), w).

Definition blob : list byte := list_byte_of_string "hello".

Definition env : server.Env World :=
  server.mkEnv World Get DigestFunction Parse serve Contains CacheGet Put.

(** a fresh call, the cache holding [index] and the mirror serving [blob] *)
Definition start (index : list (string * Z)) : server.State World :=
  server.mkState (mkWorld index blob) [].

(** the same, the mirror serving [data] *)
Definition start_serving (data : list byte) : server.State World :=
  server.mkState (mkWorld [] data) [].

(** [checksum.sri] values: the SHA-512 digests of the empty blob and of
    [blob] *)
Definition sri_empty : string :=
  "sha512-z4PhNX7vuL3xVChQ1m2AB9Yg5AULVxXcg/SpIdNs6c5H0NE8XYXysP+DGNKHfuwvY7kxvUdBeoGlODJ6+SfaPg==".

Definition sri_blob : string :=
  "sha512-m3HSJL1i83hdltRq0+o9czGb+8KJDKra4t/3JRlnPKcjI8PZm6XBHXx6zG4UuMXaDEZjR1wuXDre9G9zvN7AQw==".

Definition checksum (value : string) : option asset.Qualifier :=
  Some (asset.mkQualifier "checksum.sri" value).

Definition b64_blob : string :=
  "m3HSJL1i83hdltRq0+o9czGb+8KJDKra4t/3JRlnPKcjI8PZm6XBHXx6zG4UuMXaDEZjR1wuXDre9G9zvN7AQw==".

Definition blob_digest : string :=
  "9b71d224bd62f3785d96d46ad3ea3d73319bfbc2890caadae2dff72519673ca72323c3d99ba5c11d7c7acc6e14b8c5da0c4663475c2e5c3adef46f73bcdec043".

Definition empty_digest : string :=
  "cf83e1357eefb8bdf1542850d66d8007d620e4050b5715dc83f4a921d36ce9ce47d0d13c5d85f2b0ff8318d2877eec2f63b931bd47417a81a538327af927da3e".

(** The checksum is the digest of the empty blob, the URI serves [blob]
    with its length declared. *)
Definition wrong_digest_request : asset.FetchBlobRequest :=
  asset.mkRequest [uri_blob] [checksum sri_empty]
    hashing.DigestFunction_UNKNOWN.

(** The same, the length not declared. *)
Definition wrong_digest_stream_request : asset.FetchBlobRequest :=
  asset.mkRequest [uri_404; uri_stream] [checksum sri_empty]
    hashing.DigestFunction_UNKNOWN.

(** A [nil] qualifier between two checksums. *)
Definition nil_qualifier_request : asset.FetchBlobRequest :=
  asset.mkRequest [uri_blob] [checksum sri_empty; None; checksum sri_blob]
    hashing.DigestFunction_UNKNOWN.

Definition two_checksums_request : asset.FetchBlobRequest :=
  asset.mkRequest [uri_blob] [checksum sri_empty; checksum sri_blob; None]
    hashing.DigestFunction_UNKNOWN.

(** Two URIs that answer 404 or are not served, then two that work, as
    in the test of the asset server. *)
Definition three_uris_request : asset.FetchBlobRequest :=
  asset.mkRequest [uri_404; uri_stream; uri_blob] [checksum sri_blob]
    hashing.DigestFunction_UNKNOWN.

(** A cache in front of a proxy backend that does not tell sizes:
    [Contains] answers with size [-1] for what the index holds, [Get]
    tells the size. *)
Definition Contains_unknown_size (_ : cache.EntryKind)
    (_ : option hashing.Hasher) (hash : string) (_ : Z) (w : World)
  : (bool * Z) * World :=
  match lookup hash w with
  | Some _ => ((true, -1), w)
  | None => ((false, -1), w)
  end.

Definition proxy_env : server.Env World :=
  server.mkEnv World Get DigestFunction Parse serve Contains_unknown_size
    CacheGet Put.

(** a checksum whose payload is three zero bytes: not a SHA-512 digest *)
Definition short_checksum_request : asset.FetchBlobRequest :=
  asset.mkRequest [uri_stream] [checksum "sha512-AAAA"]
    hashing.DigestFunction_UNKNOWN.

(** a request that names its digest function *)
Definition sha512_request : asset.FetchBlobRequest :=
  asset.mkRequest [uri_404; uri_stream]
    [Some (asset.mkQualifier "vcs.branch" "main"); checksum sri_empty]
    hashing.DigestFunction_SHA512.

(** qualifiers of other names around a checksum *)
Definition mixed_qualifiers_request : asset.FetchBlobRequest :=
  asset.mkRequest [uri_stream]
    [Some (asset.mkQualifier "vcs.branch" "main"); checksum sri_blob;
     Some (asset.mkQualifier "resource_type" "application/gzip")]
    hashing.DigestFunction_UNKNOWN.

End fixture.

(* ================================================================== *)
(** ** package testutils *)

Module testutils.

(** [make([]byte, size)] panics for a negative size. *)
Definition make (size : Z) : server.Result (list byte) :=
  if size <? 0 then server.Panics "makeslice: len out of range"
  else server.Returns (repeat x00 (Z.to_nat size)).

(** What [rand.Read(b)] leaves in [b] when the source delivered [rnd]:
    the bytes delivered replace the head of [b], the length of [b] does
    not change. *)
Definition overwrite (b rnd : list byte) : list byte :=
  firstn (List.length b) rnd ++ skipn (List.length rnd) b.

Section Random.
(** The source of randomness: asked for [n] bytes in state [r], it
    delivers bytes and possibly an error.  [crypto_New] is
    [crypto.Hash.New], defined for the hash functions linked into the
    binary; for the others it panics. *)
Context {R : Type}
  (rand_Read : nat -> R -> (list byte * option error) * R)
  (crypto_New : crypto.Hash -> option hashing.hash_Hash).

(** [for i := 0; i < 3; i++ { _, err := rand.Read(data); if err == nil
    { break } }] *)
Fixpoint read_random (tries : nat) (data : list byte) (r : R)
  : list byte * R :=
  match tries with
  | O => (data, r)
  | S tries' =>
      let '((rnd, err), r') := rand_Read (List.length data) r in
      let data' := overwrite data rnd in
      match err with
      | None => (data', r')
      | Some _ => read_random tries' data' r'
      end
  end.

Definition RandomDataAndHash (hashType : crypto.Hash) (size : Z) (r : R)
  : server.Result (list byte * string) * R :=
  match make size with
  | server.Panics msg => (server.Panics msg, r)
  | server.Returns data =>
      let '(data, r') := read_random 3 data r in
      match crypto_New hashType with
      | None =>
          (server.Panics "crypto: requested hash function is unavailable",
           r')
      | Some hasher =>
          let d := hashing.Write hasher (hashing.state hasher) data in
          let hashStr := hex.EncodeToString (hashing.Sum hasher d []) in
          (server.Returns (data, hashStr), r')
      end
  end.

Definition RandomDataAndSHA256 (size : Z) (r : R)
  : server.Result (list byte * string) * R :=
  RandomDataAndHash crypto.SHA256 size r.

Definition RandomDataAndSHA256Digest (size : Z) (r : R)
  : server.Result (list byte * pb.Digest) * R :=
  match RandomDataAndSHA256 size r with
  | (server.Returns (data, hash), r') =>
      (server.Returns (data, pb.mkDigest hash size), r')
  | (server.Panics msg, r') => (server.Panics msg, r')
  end.

End Random.

(** [crypto.SHA256.New()], [crypto.SHA384.New()], [crypto.SHA512.New()]
    with [crypto/sha256] and [crypto/sha512] linked in. *)
Definition sha2_New (h : crypto.Hash) : option hashing.hash_Hash :=
  if h =? crypto.SHA256
  then Some (hashing.mkHash sha256.New sha256.Write sha256.Sum)
  else if h =? crypto.SHA384 then Some hashing.sha384_New
  else if h =? crypto.SHA512 then Some hashing.sha512_New
  else None.

(** a source that fails twice, delivering half of the bytes each time,
    and then delivers all of them *)
Definition flaky_Read (n : nat) (r : nat) : (list byte * option error) * nat :=
  if (r <? 2)%nat
  then ((repeat x2a (n / 2), Some (errors_New "entropy source failed")), S r)
  else ((repeat x07 n, None), S r).

End testutils.

(* ================================================================== *)
(** ** Notions the properties are stated with *)

(** A qualifier the loop of [FetchBlob] passes over: it is not [nil] and
    its name is not [checksum.sri]. *)
Definition unrecognised (q : option asset.Qualifier) : bool :=
  match q with
  | Some q => negb (String.eqb (asset.Name q) "checksum.sri")
  | None => false
  end.

(** A qualifier that cannot make the loop panic: if it is a
    [checksum.sri], its value has a separator and the registry returns a
    hasher for its algorithm. *)
Definition resolvable {W : Type} (env : server.Env W)
    (q : option asset.Qualifier) : Prop :=
  match q with
  | Some q =>
      asset.Name q = "checksum.sri" ->
      exists a b h,
        strings.cut "-" (asset.Value q) = Some (a, b)
        /\ fst (server.hashing_Get env (server.hashing_DigestFunction env a))
           = Some h
  | None => True
  end.

(** the request without the qualifiers of other names *)
Definition without_unrecognised (req : asset.FetchBlobRequest)
  : asset.FetchBlobRequest :=
  asset.mkRequest (asset.Uris req)
    (filter (fun q => negb (unrecognised q)) (asset.Qualifiers req))
    (asset.DigestFunction req).

(* ================================================================== *)
(** * Properties *)

(** ** Test vectors for the standard-library models *)

Example sha256_K_ends :
  firstn 2 sha256._K = [0x428a2f98; 0x71374491]
  /\ skipn 62 sha256._K = [0xbef9a3f7; 0xc67178f2].
Proof. split; reflexivity. Qed.

Example Sum256_abc :
  hex.EncodeToString (sha256.Sum256 (list_byte_of_string "abc"))
  = "ba7816bf8f01cfea414140de5dae2223b00361a396177a9cb410ff61f20015ad".
Proof. vm_compute. reflexivity. Qed.

Example Sum256_two_blocks :
  hex.EncodeToString (sha256.Sum256 (list_byte_of_string
    "abcdbcdecdefdefgefghfghighijhijkijkljklmklmnlmnomnopnopq"))
  = "248d6a61d20638b8e5c026930c3e6039a33ce45964ff2167f6ecedd419db06c1".
Proof. vm_compute. reflexivity. Qed.

Example Sum384_empty :
  hex.EncodeToString (sha512.Sum384 [])
  = "38b060a751ac96384cd9327eb1b1e36a21fdb71114be07434c0cc7bf63f6e1da274edebfe76f65fbd51ad2f14898b95b".
Proof. vm_compute. reflexivity. Qed.

Example Sum512_two_blocks :
  hex.EncodeToString (sha512.Sum512 (list_byte_of_string
    "abcdefghbcdefghicdefghijdefghijkefghijklfghijklmghijklmnhijklmnoijklmnopjklmnopqklmnopqrlmnopqrsmnopqrstnopqrstu"))
  = "8e959b75dae313da8cf4f72814fc143f8f7779c6eb9f7fa17299aeadb6889018501d289e4900f7e4331b99dec4b5433ac7d329eeb6dd26545e96e55b874be909".
Proof. vm_compute. reflexivity. Qed.

Example DecodeString_padded :
  base64.DecodeString "aGVsbA==" = Some (list_byte_of_string "hell")
  /\ base64.DecodeString "aGVsbG8=" = Some (list_byte_of_string "hello")
  /\ base64.DecodeString "aGVsbG8" = None
  /\ base64.DecodeString "aGVsbA=" = None
  /\ base64.DecodeString "aGVs-G8=" = None.
Proof. repeat split; reflexivity. Qed.

Example SplitN_examples :
  strings.SplitN "sha256-a-b" "-" 2 = ["sha256"; "a-b"]
  /\ strings.SplitN "sha256" "-" 2 = ["sha256"]
  /\ strings.SplitN EmptyString "-" 2 = [EmptyString].
Proof. repeat split; reflexivity. Qed.

(* ------------------------------------------------------------------ *)
(** ** Hexadecimal strings *)

Lemma tab_lower_hex (b : byte) :
  regexp.lower_hex (hex.tab (Z.shiftr (Z_of_byte b) 4)) = true
  /\ regexp.lower_hex (hex.tab (Z.land (Z_of_byte b) 15)) = true.
Proof. destruct b; split; reflexivity. Qed.

Lemma EncodeToString_length (src : list byte) :
  String.length (hex.EncodeToString src) = (2 * List.length src)%nat.
Proof.
  induction src as [|v rest IH]; simpl; [reflexivity|].
  rewrite IH. lia.
Qed.

Lemma match_repeat_EncodeToString (src : list byte) (n : nat) :
  n = (2 * List.length src)%nat ->
  regexp.match_repeat regexp.lower_hex n (hex.EncodeToString src) = true.
Proof.
  revert n. induction src as [|v rest IH]; intros n ->; [reflexivity|].
  replace (2 * List.length (v :: rest))%nat
    with (S (S (2 * List.length rest))) by (simpl; lia).
  cbn [hex.EncodeToString regexp.match_repeat].
  destruct (tab_lower_hex v) as [-> ->]. simpl. now apply IH.
Qed.

(** What [MatchString] accepts, spelled out. *)
Lemma match_repeat_spec (cls : ascii -> bool) (n : nat) (s : string) :
  regexp.match_repeat cls n s = true <->
  String.length s = n /\ Forall (fun c => cls c = true) (list_ascii_of_string s).
Proof.
  revert s. induction n as [|n IH]; intros [|c s]; simpl; split;
    try (intros [? ?]; discriminate); try discriminate; auto.
  - rewrite andb_true_iff, IH. intros [Hc [Hl Hf]]. split; auto.
  - rewrite andb_true_iff, IH. intros [Hl Hf].
    inversion Hf; subst. repeat split; auto.
Qed.

(* ------------------------------------------------------------------ *)
(** ** The SHA-2 digests have a fixed length *)

Lemma PutUint_length (n : nat) (v : Z) : List.length (sha2.PutUint n v) = n.
Proof.
  unfold sha2.PutUint. now rewrite length_map, length_rev, length_seq.
Qed.

Lemma regs_bytes_length (wbits : Z) (v : sha2.regs) :
  List.length (sha2.regs_bytes wbits v) = (8 * sha2.wbytes wbits)%nat.
Proof.
  unfold sha2.regs_bytes. rewrite !length_app, !PutUint_length. lia.
Qed.

Lemma checkSum512_length (d : sha512.digest) :
  List.length (sha512.checkSum d) = 64%nat.
Proof. unfold sha512.checkSum, sha2.checkSum. now rewrite regs_bytes_length. Qed.

Lemma Sum512_length (data : list byte) :
  List.length (sha512.Sum512 data) = 64%nat.
Proof. apply checkSum512_length. Qed.

Lemma Sum384_length (data : list byte) :
  List.length (sha512.Sum384 data) = 48%nat.
Proof.
  unfold sha512.Sum384. rewrite length_firstn, checkSum512_length. reflexivity.
Qed.

Lemma Sum256_length (data : list byte) :
  List.length (sha256.Sum256 data) = 32%nat.
Proof.
  unfold sha256.Sum256, sha256.Sum, sha2.Sum, sha2.checkSum.
  now rewrite app_nil_l, regs_bytes_length.
Qed.

(* ------------------------------------------------------------------ *)
(** ** Writing in pieces

    [Write] keeps less than a block pending, so that two writes leave the
    digest in the state one write of the concatenation leaves it in. *)

Section Streaming.
Variable wbits : Z.
Variable K : list Z.
Variable S0a S0b S0c S1a S1b S1c : Z.
Variable s0a s0b s0c s1a s1b s1c : Z.
Hypothesis chunk_pos : (0 < sha2.chunk wbits)%nat.

#[local] Abbreviation absorb :=
  (sha2.absorb wbits K S0a S0b S0c S1a S1b S1c s0a s0b s0c s1a s1b s1c).
#[local] Abbreviation block :=
  (sha2.block wbits K S0a S0b S0c S1a S1b S1c s0a s0b s0c s1a s1b s1c).
#[local] Abbreviation Write :=
  (sha2.Write wbits K S0a S0b S0c S1a S1b S1c s0a s0b s0c s1a s1b s1c).

Lemma absorb_short (fuel : nat) (hv : sha2.regs) (buf : list byte) :
  (List.length buf < sha2.chunk wbits)%nat -> absorb fuel hv buf = (hv, buf).
Proof.
  intros Hlt. destruct fuel; [reflexivity|]. simpl.
  destruct (Nat.leb_spec (sha2.chunk wbits) (List.length buf)); [lia|reflexivity].
Qed.

Lemma absorb_step (fuel : nat) (hv : sha2.regs) (buf : list byte) :
  (sha2.chunk wbits <= List.length buf)%nat ->
  absorb (S fuel) hv buf
  = absorb fuel (block hv (firstn (sha2.chunk wbits) buf))
      (skipn (sha2.chunk wbits) buf).
Proof.
  intros Hle. simpl.
  destruct (Nat.leb_spec (sha2.chunk wbits) (List.length buf)); [reflexivity|lia].
Qed.

(** Fuel beyond the length of the buffer changes nothing. *)
Lemma absorb_fuel (f1 : nat) :
  forall (f2 : nat) (hv : sha2.regs) (buf : list byte),
    (List.length buf <= f1)%nat -> (List.length buf <= f2)%nat ->
    absorb f1 hv buf = absorb f2 hv buf.
Proof.
  induction f1 as [|f1 IH]; intros f2 hv buf H1 H2.
  - rewrite !absorb_short by lia. reflexivity.
  - destruct (Nat.lt_ge_cases (List.length buf) (sha2.chunk wbits)) as [Hlt|Hge].
    + rewrite !absorb_short by lia. reflexivity.
    + destruct f2 as [|f2]; [lia|].
      rewrite !absorb_step by assumption.
      apply IH; rewrite length_skipn; lia.
Qed.

Lemma absorb_app (n : nat) :
  forall (hv : sha2.regs) (a b : list byte),
    (List.length a <= n)%nat ->
    absorb (List.length (a ++ b)) hv (a ++ b)
    = let '(hv', rest) := absorb (List.length a) hv a in
      absorb (List.length (rest ++ b)) hv' (rest ++ b).
Proof.
  induction n as [|n IH]; intros hv a b Hn.
  - rewrite (absorb_short _ hv a) by lia. reflexivity.
  - destruct (Nat.lt_ge_cases (List.length a) (sha2.chunk wbits)) as [Hlt|Hge].
    + rewrite (absorb_short _ hv a) by lia. reflexivity.
    + assert (Hab : (sha2.chunk wbits <= List.length (a ++ b))%nat)
        by (rewrite length_app; lia).
      destruct (List.length (a ++ b)) as [|fab] eqn:Efab; [lia|].
      destruct (List.length a) as [|fa] eqn:Efa; [lia|].
      rewrite !absorb_step by lia.
      rewrite firstn_app, skipn_app.
      replace (sha2.chunk wbits - List.length a)%nat with 0%nat by lia.
      rewrite firstn_O, skipn_O, app_nil_r.
      set (a' := skipn (sha2.chunk wbits) a).
      assert (Ha' : (List.length a' <= n)%nat)
        by (unfold a'; rewrite length_skipn; lia).
      rewrite (absorb_fuel fab (List.length (a' ++ b)))
        by (rewrite ?length_app in *; unfold a' in *;
            rewrite ?length_skipn in *; lia).
      rewrite (absorb_fuel fa (List.length a'))
        by (unfold a'; rewrite ?length_skipn; lia).
      apply IH. exact Ha'.
Qed.

Lemma Write_app (d : sha2.digest) (a b : list byte) :
  Write (Write d a) b = Write d (a ++ b).
Proof.
  unfold sha2.Write.
  destruct (absorb (List.length (sha2.x d ++ a)) (sha2.h d) (sha2.x d ++ a))
    as [hv rest] eqn:E1.
  cbn [sha2.x sha2.h sha2.dlen].
  rewrite (app_assoc (sha2.x d) a b).
  rewrite (absorb_app _ (sha2.h d) (sha2.x d ++ a) b (le_n _)), E1.
  destruct (absorb (List.length (rest ++ b)) hv (rest ++ b)) as [hv' rest'].
  f_equal.
  rewrite length_app, Nat2Z.inj_add, Z.add_mod_idemp_l by lia.
  f_equal. lia.
Qed.

End Streaming.

Lemma sha256_Write_app (d : sha256.digest) (a b : list byte) :
  sha256.Write (sha256.Write d a) b = sha256.Write d (a ++ b).
Proof. apply Write_app. vm_compute. lia. Qed.

Lemma list_byte_of_string_app (s1 s2 : string) :
  list_byte_of_string (s1 ++ s2)%string
  = list_byte_of_string s1 ++ list_byte_of_string s2.
Proof.
  unfold list_byte_of_string. rewrite <- map_app. f_equal.
  induction s1 as [|c s1 IH]; simpl; [reflexivity|]. now rewrite IH.
Qed.

(* ------------------------------------------------------------------ *)
(** ** The hashers *)

Lemma len_EncodeToString (src : list byte) :
  len (hex.EncodeToString src) = 2 * Z.of_nat (List.length src).
Proof. unfold len. rewrite EncodeToString_length. lia. Qed.

Lemma EncodeToString_lower_hex (src : list byte) :
  Forall (fun c => regexp.lower_hex c = true)
    (list_ascii_of_string (hex.EncodeToString src)).
Proof.
  apply (match_repeat_spec regexp.lower_hex (2 * List.length src)).
  now apply match_repeat_EncodeToString.
Qed.

Lemma sha384_Validate_Hash (data : list byte) :
  hashing.sha384_Validate (hashing.sha384_Hash data) = None.
Proof.
  unfold hashing.sha384_Validate, hashing.sha384_Hash.
  rewrite len_EncodeToString, Sum384_length.
  change (hashing.sha384_Size * 2 =? 2 * Z.of_nat 48) with true.
  cbn [negb]. unfold regexp.MatchString.
  cbn [regexp.class regexp.count hashing.sha384Regex].
  rewrite match_repeat_EncodeToString; [reflexivity|].
  now rewrite Sum384_length.
Qed.

Lemma sha512_Validate_Hash (data : list byte) :
  hashing.sha512_Validate (hashing.sha512_Hash data) = None.
Proof.
  unfold hashing.sha512_Validate, hashing.sha512_Hash.
  rewrite len_EncodeToString, Sum512_length.
  change (hashing.sha512_Size * 2 =? 2 * Z.of_nat 64) with true.
  cbn [negb]. unfold regexp.MatchString.
  cbn [regexp.class regexp.count hashing.sha512Regex].
  rewrite match_repeat_EncodeToString; [reflexivity|].
  now rewrite Sum512_length.
Qed.

(** C10: for each registered hasher [h] (SHA-384, SHA-512) and every byte
    sequence [x], [h.Validate(h.Hash(x))] returns [nil]; [h.Hash(x)] is a
    string of exactly [2 * h.Size()] characters, all of them in
    [[a-f0-9]]. *)
Theorem Validate_Hash_succeeds (h : hashing.Hasher) (x : list byte) :
  In h hashing.registered ->
  hashing.Validate h (hashing.Hash h x) = None
  /\ len (hashing.Hash h x) = 2 * hashing.Size h
  /\ Forall (fun c => regexp.lower_hex c = true)
       (list_ascii_of_string (hashing.Hash h x)).
Proof.
  intros [<-|[<-|[]]]; cbn [hashing.Validate hashing.Hash hashing.Size
                             hashing.sha384Hasher hashing.sha512Hasher].
  - split; [apply sha384_Validate_Hash|]. split.
    + unfold hashing.sha384_Hash.
      now rewrite len_EncodeToString, Sum384_length.
    + apply EncodeToString_lower_hex.
  - split; [apply sha512_Validate_Hash|]. split.
    + unfold hashing.sha512_Hash.
      now rewrite len_EncodeToString, Sum512_length.
    + apply EncodeToString_lower_hex.
Qed.

Lemma Validate_Hash_succeeds_witness :
  In hashing.sha384Hasher hashing.registered
  /\ hashing.Validate hashing.sha384Hasher
       (hashing.Hash hashing.sha384Hasher (list_byte_of_string "abc")) = None.
Proof.
  split; [simpl; auto|].
  apply (Validate_Hash_succeeds hashing.sha384Hasher
           (list_byte_of_string "abc")).
  simpl; auto.
Defined.

(** The SHA-512 hasher's [Empty] is the digest of the empty input. *)
Lemma sha512_Empty_is_Hash_nil :
  hashing.Empty hashing.sha512Hasher = hashing.Hash hashing.sha512Hasher []
  /\ hashing.Validate hashing.sha512Hasher
       (hashing.Empty hashing.sha512Hasher) = None
  /\ len (hashing.Empty hashing.sha512Hasher)
     = 2 * hashing.Size hashing.sha512Hasher.
Proof. repeat split; vm_compute; reflexivity. Qed.

(** C2: the SHA-384 hasher's [Empty()] is not the SHA-384 digest of the
    empty input: it is the 128-character SHA-512 one.  It differs from
    [Hash] of the empty byte sequence, its length is not [2 * Size()], and
    [Validate] rejects it. *)
Theorem sha384_Empty_is_not_Hash_nil :
  hashing.Empty hashing.sha384Hasher <> hashing.Hash hashing.sha384Hasher []
  /\ hashing.Empty hashing.sha384Hasher
     = hashing.Hash hashing.sha512Hasher []
  /\ len (hashing.Empty hashing.sha384Hasher) = 128
  /\ 2 * hashing.Size hashing.sha384Hasher = 96
  /\ hashing.Validate hashing.sha384Hasher
       (hashing.Empty hashing.sha384Hasher)
     = Some (fmt_Errorf "Invalid sha384 hash length %d: expected %d"
               [ArgInt 128; ArgInt 48]).
Proof.
  split; [vm_compute; discriminate|].
  repeat split; vm_compute; reflexivity.
Qed.

(* ------------------------------------------------------------------ *)
(** ** Action-cache keys *)

(** C8: with an empty instance name the key is returned unchanged; with a
    non-empty one the result is the hexadecimal encoding (64 characters of
    [[a-f0-9]]) of the SHA-256 digest of the key followed by the instance
    name.  The function has no digest-function argument: SHA-256 is
    fixed. *)
Theorem TransformActionCacheKey_spec (k i : string) :
  i <> EmptyString ->
  fst (cache.TransformActionCacheKey k EmptyString) = k
  /\ fst (cache.TransformActionCacheKey k i)
     = hex.EncodeToString
         (sha256.Sum256 (list_byte_of_string (k ++ i)%string))
  /\ len (fst (cache.TransformActionCacheKey k i)) = 64
  /\ Forall (fun c => regexp.lower_hex c = true)
       (list_ascii_of_string (fst (cache.TransformActionCacheKey k i))).
Proof.
  intros Hi. split; [reflexivity|].
  assert (E : fst (cache.TransformActionCacheKey k i)
              = hex.EncodeToString
                  (sha256.Sum256 (list_byte_of_string (k ++ i)%string))).
  { unfold cache.TransformActionCacheKey.
    destruct (String.eqb_spec i EmptyString); [contradiction|].
    cbn [fst]. unfold sha256.Sum256.
    now rewrite sha256_Write_app, list_byte_of_string_app. }
  rewrite E. split; [reflexivity|]. split.
  - now rewrite len_EncodeToString, Sum256_length.
  - apply EncodeToString_lower_hex.
Qed.

Lemma TransformActionCacheKey_spec_witness :
  "def" <> EmptyString
  /\ fst (cache.TransformActionCacheKey "abc" "def")
     = hex.EncodeToString (sha256.Sum256 (list_byte_of_string "abcdef")).
Proof.
  split; [discriminate|].
  apply (TransformActionCacheKey_spec "abc" "def"). discriminate.
Defined.

(* ------------------------------------------------------------------ *)
(** ** Sequencing and loops *)

Section Control.
Context {W : Type}.
Import server.

Lemma bind_Returns {A B} (c : M W A) (k : A -> M W B) st a st' :
  c st = (Returns a, st') -> bind c k st = k a st'.
Proof. unfold bind. now intros ->. Qed.

Lemma bind_Panics {A B} (c : M W A) (k : A -> M W B) st msg st' :
  c st = (Panics msg, st') -> bind c k st = (Panics msg, st').
Proof. unfold bind. now intros ->. Qed.

(** A loop over [l1 ++ l2] runs the loop over [l1] and, unless that one
    returns or panics, goes on with [l2] from where it stopped. *)
Lemma for_range_app {X R V} (body : X -> V -> M W (Flow R V))
    (l1 l2 : list X) :
  forall v st,
    for_range body (l1 ++ l2) v st
    = match for_range body l1 v st with
      | (Returns (Continue v'), st') => for_range body l2 v' st'
      | (Returns (Return r), st') => (Returns (Return r), st')
      | (Panics msg, st') => (Panics msg, st')
      end.
Proof.
  induction l1 as [|x l1 IH]; intros v st; [reflexivity|].
  cbn [app for_range]. unfold bind.
  destruct (body x v st) as [[[r|v']|msg] st1]; auto.
Qed.

(** The step that returns ends the loop. *)
Lemma for_range_Return {X R V} (body : X -> V -> M W (Flow R V))
    (x : X) (l : list X) v st r st' :
  body x v st = (Returns (Return r), st') ->
  for_range body (x :: l) v st = (Returns (Return r), st').
Proof. intros H. cbn [for_range]. now rewrite (bind_Returns _ _ _ _ _ H). Qed.

End Control.

(** What a string without separator splits into. *)
Lemma SplitN_no_separator (s : string) (sep : ascii) :
  strings.cut sep s = None -> strings.SplitN s sep 2 = [s].
Proof.
  intros H. unfold strings.SplitN.
  destruct s as [|c s]; [reflexivity|].
  replace (Nat.min 2 (String.length (String c s) + 1)) with 2%nat
    by (cbn [String.length]; lia).
  unfold strings.split_loop. now rewrite H.
Qed.

Lemma cut_join (sep : ascii) (a b : string) :
  strings.cut sep a = None ->
  strings.cut sep (a ++ String sep b)%string = Some (a, b).
Proof.
  induction a as [|c a IH]; cbn [strings.cut String.append].
  - now rewrite Ascii.eqb_refl.
  - destruct (Ascii.eqb c sep); [discriminate|].
    destruct (strings.cut sep a) as [[? ?]|]; [discriminate|].
    intros _. now rewrite IH.
Qed.

Lemma length_append (a b : string) :
  String.length (a ++ b)%string = (String.length a + String.length b)%nat.
Proof. induction a as [|c a IH]; simpl; [reflexivity|]. now rewrite IH. Qed.

(** [<algorithm>-<payload>] splits at the first separator. *)
Lemma SplitN_join (a b : string) :
  strings.cut "-" a = None ->
  strings.SplitN (a ++ String "-" b)%string "-" 2 = [a; b].
Proof.
  intros H. unfold strings.SplitN.
  assert (L : (2 <= String.length (a ++ String "-" b)%string + 1)%nat).
  { rewrite length_append. simpl. lia. }
  rewrite Nat.min_l by exact L.
  cbn [strings.split_loop]. now rewrite (cut_join _ _ _ H).
Qed.

(* ------------------------------------------------------------------ *)
(** ** The asset server *)

Ltac unfold_go :=
  cbv beta iota delta
    [server.bind server.ret server.emit server.call server.panic
     server.method server.index server.errorLogger_Printf
     server.accessLogger_Printf server.hashingGet].

(** case analysis on an innermost scrutinee *)
Ltac break_match :=
  match goal with
  | |- context [match ?x with _ => _ end] =>
      lazymatch x with
      | context [match _ with _ => _ end] => fail
      | _ => destruct x eqn:?
      end
  end;
  cbv beta iota.

(** the trace grew by events that are neither requests nor cache writes *)
Ltac quiet_extension :=
  cbn [server.trace server.world];
  first
    [ exists (@nil server.Event); split;
      [symmetry; apply app_nil_r | split; reflexivity]
    | eexists; split;
      [rewrite <- ?app_assoc; reflexivity | split; reflexivity] ].

Section Asset.
Context {W : Type} (env : server.Env W).
Import server.

(** The qualifier loop reads the cache index, it never fetches and never
    writes. *)
Lemma qualifier_body_quiet q v st r st' :
  qualifier_body env q v st = (r, st') ->
  exists t, trace st' = trace st ++ t
            /\ http_requests t = [] /\ cache_writes t = [].
Proof.
  unfold qualifier_body. unfold_go.
  repeat break_match; intros H; injection H as <- <-; quiet_extension.
Qed.

Lemma try_qualifiers_quiet qs :
  forall v st r st',
    try_qualifiers env qs v st = (r, st') ->
    exists t, trace st' = trace st ++ t
              /\ http_requests t = [] /\ cache_writes t = [].
Proof.
  unfold try_qualifiers.
  induction qs as [|q qs IH]; intros v st r st'; cbn [for_range].
  - unfold ret. intros H; injection H as <- <-. quiet_extension.
  - unfold bind at 1.
    destruct (qualifier_body env q v st) as [[[resp|v1]|msg] st1] eqn:E;
      apply qualifier_body_quiet in E; destruct E as (t1 & E1 & H1 & C1).
    + unfold ret. intros H; injection H as <- <-. eauto.
    + intros H. apply IH in H. destruct H as (t2 & E2 & H2 & C2).
      exists (t1 ++ t2). rewrite E2, E1, <- app_assoc.
      unfold http_requests, cache_writes in *.
      rewrite !flat_map_app, H1, H2, C1, C2. auto.
    + intros H; injection H as <- <-. eauto.
Qed.

Lemma http_requests_app t1 t2 :
  http_requests (t1 ++ t2) = http_requests t1 ++ http_requests t2.
Proof. apply flat_map_app. Qed.

Lemma cache_writes_app t1 t2 :
  cache_writes (t1 ++ t2) = cache_writes t1 ++ cache_writes t2.
Proof. apply flat_map_app. Qed.

(** [digest_function_hint] always returns, leaves the world as it is and
    records the lookup. *)
Lemma digest_function_hint_runs req st :
  digest_function_hint env req st
  = (Returns (fst (hashing_Get env (asset.GetDigestFunction req))),
     mkState (world st)
       (trace st ++
        EvHashingGet (asset.GetDigestFunction req) ::
        match snd (hashing_Get env (asset.GetDigestFunction req)) with
        | Some e =>
            [EvErrorLog (Printf "Unknown digest function %d: %v"
                           [LInt (asset.GetDigestFunction req);
                            LErr (Some e)])]
        | None => []
        end)).
Proof.
  unfold digest_function_hint. unfold_go.
  destruct (hashing_Get env (asset.GetDigestFunction req)) as [h [e|]];
    cbn [fst snd world trace]; now rewrite <- ?app_assoc.
Qed.

(** C5 (amended): on a [nil] request [FetchBlob] returns no response and
    the [InvalidArgument] error.  Before that it has looked up the digest
    function of the [nil] request (the zero value) in the registry, and
    logged the failure if the lookup failed; the cache and the network are
    not touched. *)
Theorem FetchBlob_nil_request (st : State W) :
  FetchBlob env None st
  = (Returns (None, Some (grpc_status_Error codes.InvalidArgument
                            "expected a non-nil *FetchBlobRequest")),
     mkState (world st)
       (trace st ++
        EvHashingGet hashing.DigestFunction_UNKNOWN ::
        match snd (hashing_Get env hashing.DigestFunction_UNKNOWN) with
        | Some e =>
            [EvErrorLog (Printf "Unknown digest function %d: %v"
                           [LInt hashing.DigestFunction_UNKNOWN;
                            LErr (Some e)])]
        | None => []
        end)).
Proof.
  unfold FetchBlob.
  rewrite (bind_Returns _ _ _ _ _ (digest_function_hint_runs None st)).
  reflexivity.
Qed.

(** C4: a [checksum.sri] value without [-] that the qualifier loop reaches
    makes [FetchBlob] panic on [parts[1]]: [strings.SplitN] returned a
    single part.  The qualifier is not skipped and the call does not
    return. *)
Theorem checksum_sri_without_separator_panics
    (req : asset.FetchBlobRequest) (value : string)
    (pre post : list (option asset.Qualifier))
    (st st0 st1 : State W) (hasher0 : option hashing.Hasher) (v : Vars) :
  strings.cut "-" value = None ->
  asset.Qualifiers req
  = pre ++ Some (asset.mkQualifier "checksum.sri" value) :: post ->
  digest_function_hint env (Some req) st = (Returns hasher0, st0) ->
  try_qualifiers env pre (EmptyString, hasher0) st0
  = (Returns (Continue v), st1) ->
  FetchBlob env (Some req) st = (Panics "index out of range", st1).
Proof.
  intros Hcut Hq Hh Hpre. unfold FetchBlob.
  rewrite (bind_Returns _ _ _ _ _ Hh).
  cbn [asset.GetQualifiers]. rewrite Hq.
  apply bind_Panics.
  unfold try_qualifiers in *. rewrite for_range_app, Hpre.
  cbn [for_range]. apply bind_Panics.
  unfold qualifier_body. cbn [asset.Name asset.Value].
  rewrite (SplitN_no_separator _ _ Hcut).
  unfold_go. reflexivity.
Qed.

(** [FetchBlob] on a request whose qualifier loop runs to its end. *)
Lemma FetchBlob_after_qualifiers req st hasher0 st0 hash hasher st1 :
  digest_function_hint env (Some req) st = (Returns hasher0, st0) ->
  try_qualifiers env (asset.Qualifiers req) (EmptyString, hasher0) st0
  = (Returns (Continue (hash, hasher)), st1) ->
  FetchBlob env (Some req) st
  = match try_uris env hasher hash (asset.Uris req) st1 with
    | (Returns (Return resp), st2) => (Returns (Some resp, None), st2)
    | (Returns (Continue _), st2) => (Returns (Some (notFound), None), st2)
    | (Panics msg, st2) => (Panics msg, st2)
    end.
Proof.
  intros Hh Hq. unfold FetchBlob.
  rewrite (bind_Returns _ _ _ _ _ Hh). cbn [asset.GetQualifiers].
  rewrite (bind_Returns _ _ _ _ _ Hq). cbn [asset.GetUris].
  unfold bind, ret.
  now destruct (try_uris env hasher hash (asset.Uris req) st1)
    as [[[resp|[]]|msg] st2].
Qed.

(** [FetchBlob] on a request whose qualifier loop returns. *)
Lemma FetchBlob_qualifier_returns req st hasher0 st0 resp st1 :
  digest_function_hint env (Some req) st = (Returns hasher0, st0) ->
  try_qualifiers env (asset.Qualifiers req) (EmptyString, hasher0) st0
  = (Returns (Return resp), st1) ->
  FetchBlob env (Some req) st = (Returns (Some resp, None), st1).
Proof.
  intros Hh Hq. unfold FetchBlob.
  rewrite (bind_Returns _ _ _ _ _ Hh). cbn [asset.GetQualifiers].
  now rewrite (bind_Returns _ _ _ _ _ Hq).
Qed.

Lemma digest_function_hint_quiet req st hasher0 st0 :
  digest_function_hint env req st = (Returns hasher0, st0) ->
  http_requests (trace st0) = http_requests (trace st)
  /\ cache_writes (trace st0) = cache_writes (trace st).
Proof.
  rewrite digest_function_hint_runs. intros H; injection H as _ <-.
  cbn [trace]. rewrite http_requests_app, cache_writes_app.
  destruct (snd (hashing_Get env (asset.GetDigestFunction req)));
    cbn; now rewrite !app_nil_r.
Qed.

(** A [checksum.sri] value that has a separator and is malformed in one
    of the three ways the loop checks for (payload not base64, digest
    function not in the registry, digest rejected by [Validate]) is
    skipped: an error line is logged and the loop goes on. *)
Lemma checksum_sri_malformed_is_skipped
    (algo b64 : string) (v : Vars) (st : State W) :
  strings.cut "-" algo = None ->
  base64.DecodeString b64 = None
  \/ (exists decoded,
        base64.DecodeString b64 = Some decoded
        /\ (snd (hashing_Get env (hashing_DigestFunction env algo)) <> None
            \/ exists h,
                 hashing_Get env (hashing_DigestFunction env algo)
                 = (Some h, None)
                 /\ hashing.Validate h (hex.EncodeToString decoded)
                    <> None)) ->
  exists v' t l,
    qualifier_body env
      (Some (asset.mkQualifier "checksum.sri"
               (algo ++ String "-" b64)%string)) v st
    = (Returns (Continue v'),
       mkState (world st) (trace st ++ t ++ [EvErrorLog l])).
Proof.
  intros Halgo Hbad.
  unfold qualifier_body. cbn [asset.Name asset.Value].
  rewrite (SplitN_join _ _ Halgo).
  cbn [String.eqb Ascii.eqb Bool.eqb].
  unfold_go. cbn [nth_error].
  destruct Hbad as [-> | (decoded & -> & [Hget | (h & Hget & Hval)])].
  - exists v, []. eexists. reflexivity.
  - destruct (hashing_Get env (hashing_DigestFunction env algo))
      as [hasher [e|]]; [|now contradiction Hget].
    cbn [world trace fst snd]. eexists _, [_], _.
    rewrite <- app_assoc. reflexivity.
  - rewrite Hget. cbn [world trace].
    destruct (hashing.Validate h (hex.EncodeToString decoded)) as [e|];
      [|now contradiction Hval].
    cbn [world trace]. eexists _, [_], _.
    rewrite <- app_assoc. reflexivity.
Qed.

(** C6: when the qualifier loop reaches a [nil] qualifier (every qualifier
    before it was skipped), [FetchBlob] returns without error a response
    that carries the status [InvalidArgument], no blob digest and no URI.
    The call ends in the state in which the [nil] qualifier was met:
    nothing that follows it in the request is looked at, no request is
    sent and nothing is written to the cache. *)
Theorem nil_qualifier_aborts
    (req : asset.FetchBlobRequest) (pre post : list (option asset.Qualifier))
    (st st0 st1 : State W) (hasher0 : option hashing.Hasher) (v : Vars) :
  asset.Qualifiers req = pre ++ None :: post ->
  digest_function_hint env (Some req) st = (Returns hasher0, st0) ->
  try_qualifiers env pre (EmptyString, hasher0) st0
  = (Returns (Continue v), st1) ->
  FetchBlob env (Some req) st
  = (Returns
       (Some (asset.mkResponse
                (Some (status.mkStatus codes.InvalidArgument
                         "unexpected nil qualifier in FetchBlobRequest"))
                EmptyString None hashing.DigestFunction_UNKNOWN),
        None),
     st1)
  /\ http_requests (trace st1) = http_requests (trace st)
  /\ cache_writes (trace st1) = cache_writes (trace st).
Proof.
  intros Hq Hh Hpre. split.
  - apply (FetchBlob_qualifier_returns _ _ _ _ _ _ Hh).
    rewrite Hq. unfold try_qualifiers in *.
    rewrite for_range_app, Hpre. reflexivity.
  - destruct (digest_function_hint_quiet _ _ _ _ Hh) as [H0 C0].
    destruct (try_qualifiers_quiet _ _ _ _ _ Hpre) as (t & E & Ht & Ct).
    rewrite E, http_requests_app, cache_writes_app, Ht, Ct, !app_nil_r.
    auto.
Qed.

(** C7: a [checksum.sri] qualifier [<algorithm>-<base64>] that the loop
    reaches, whose algorithm the registry resolves and whose payload
    decodes to a digest that the CAS contains with a size [>= 0], makes
    [FetchBlob] return [OK] with that hash, that size and the qualifier's
    digest function.  The call ends right after the [Contains] lookup: no
    later qualifier and no URI is tried, no request is sent. *)
Theorem checksum_sri_hit_resolves
    (req : asset.FetchBlobRequest) (pre post : list (option asset.Qualifier))
    (algo b64 : string) (decoded : list byte) (h : hashing.Hasher)
    (size : Z) (st st0 st1 : State W) (hasher0 : option hashing.Hasher)
    (v : Vars) (w2 : W) :
  asset.Qualifiers req
  = pre ++ Some (asset.mkQualifier "checksum.sri"
                   (algo ++ String "-" b64)%string) :: post ->
  strings.cut "-" algo = None ->
  base64.DecodeString b64 = Some decoded ->
  hashing_Get env (hashing_DigestFunction env algo) = (Some h, None) ->
  hashing.Validate h (hex.EncodeToString decoded) = None ->
  digest_function_hint env (Some req) st = (Returns hasher0, st0) ->
  try_qualifiers env pre (EmptyString, hasher0) st0
  = (Returns (Continue v), st1) ->
  cache_Contains env cache.CAS (Some h) (hex.EncodeToString decoded) (-1)
    (world st1) = ((true, size), w2) ->
  0 <= size ->
  FetchBlob env (Some req) st
  = (Returns
       (Some (asset.mkResponse
                (Some (status.mkStatus codes.OK EmptyString)) EmptyString
                (Some (pb.mkDigest (hex.EncodeToString decoded) size))
                (hashing_DigestFunction env algo)),
        None),
     mkState w2
       (trace st1 ++
        [EvHashingGet (hashing_DigestFunction env algo);
         EvContains cache.CAS (hex.EncodeToString decoded) (-1)]))
  /\ http_requests
       (trace st1 ++
        [EvHashingGet (hashing_DigestFunction env algo);
         EvContains cache.CAS (hex.EncodeToString decoded) (-1)])
     = http_requests (trace st).
Proof.
  intros Hq Halgo Hb64 Hget Hval Hh Hpre Hcont Hsize. split.
  - apply (FetchBlob_qualifier_returns _ _ _ _ _ _ Hh).
    rewrite Hq. unfold try_qualifiers in *.
    rewrite for_range_app, Hpre.
    apply for_range_Return.
    unfold qualifier_body. cbn [asset.Name asset.Value].
    rewrite (SplitN_join _ _ Halgo).
    cbn [String.eqb Ascii.eqb Bool.eqb].
    unfold_go. cbn [nth_error]. rewrite Hb64, Hget.
    cbn [world trace]. rewrite Hval. cbn [world trace]. rewrite Hcont.
    cbn [negb]. destruct (Z.ltb_spec size 0); [lia|].
    now rewrite <- app_assoc.
  - destruct (digest_function_hint_quiet _ _ _ _ Hh) as [H0 _].
    destruct (try_qualifiers_quiet _ _ _ _ _ Hpre) as (t & E & Ht & _).
    rewrite http_requests_app, E, http_requests_app, Ht, H0.
    cbn. now rewrite !app_nil_r.
Qed.

(** *** Fetching one URI *)

Lemma scheme_supported (u : url.URL) :
  url.Scheme u = "http" \/ url.Scheme u = "https" ->
  negb (String.eqb (url.Scheme u) "http")
  && negb (String.eqb (url.Scheme u) "https") = false.
Proof. intros [-> | ->]; reflexivity. Qed.

Lemma status_2xx (code : Z) :
  200 <= code < 300 -> (code <? 200) || (code >=? 300) = false.
Proof.
  intros H. rewrite Z.geb_leb.
  destruct (Z.ltb_spec code 200); [lia|].
  destruct (Z.leb_spec 300 code); [lia|reflexivity].
Qed.

Lemma eqb_nonempty (s : string) :
  s <> EmptyString -> String.eqb s EmptyString = false.
Proof. intros H. now destruct (String.eqb_spec s EmptyString). Qed.

(** With an expected hash and a declared length the body goes to [Put] as
    it comes; what [fetchItem] returns depends on [Put] alone. *)
Lemma fetchItem_known_length hasher uri expectedHash u st resp w1 perr w2 :
  expectedHash <> EmptyString ->
  url_Parse env uri = inl u ->
  url.Scheme u = "http" \/ url.Scheme u = "https" ->
  http_Get env uri (world st) = (inl resp, w1) ->
  200 <= http.StatusCode resp < 300 ->
  0 <= http.ContentLength resp ->
  cache_Put env cache.CAS hasher expectedHash (http.ContentLength resp)
    (http.Body resp) w1 = (perr, w2) ->
  fetchItem env hasher uri expectedHash st
  = (Returns
       (match perr with
        | Some e => if is_EOF e
                    then (true, expectedHash, http.ContentLength resp)
                    else notOK
        | None => (true, expectedHash, http.ContentLength resp)
        end),
     mkState w2
       (trace st ++
        [EvHttpGet uri;
         EvAccessLog (Printf "GRPC ASSET FETCH %s %s"
                        [LStr uri; LStr (http.Status resp)]);
         EvPut cache.CAS expectedHash (http.ContentLength resp)
           (http.Body resp)] ++
        match perr with
        | Some e => if is_EOF e then []
                    else [EvErrorLog (Printf "failed to Put %s: %v"
                                        [LStr expectedHash; LErr perr])]
        | None => []
        end)).
Proof.
  intros Hne Hparse Hscheme Hget Hcode Hlen Hput.
  unfold fetchItem. rewrite Hparse, (scheme_supported _ Hscheme).
  unfold_go. rewrite Hget. cbn [world trace].
  rewrite (status_2xx _ Hcode), (eqb_nonempty _ Hne).
  destruct (Z.ltb_spec (http.ContentLength resp) 0); [lia|].
  cbn [orb world trace]. rewrite Hput.
  destruct perr as [e|]; [destruct (is_EOF e)|];
    cbn [negb world trace]; rewrite <- ?app_assoc; cbn [app];
    rewrite ?app_nil_r; reflexivity.
Qed.

(** Without a declared length the body is read and hashed; a body that
    does not hash to the expected value is not written to the cache. *)
Lemma fetchItem_mismatch_buffered h uri expectedHash u st resp w1 :
  expectedHash <> EmptyString ->
  url_Parse env uri = inl u ->
  url.Scheme u = "http" \/ url.Scheme u = "https" ->
  http_Get env uri (world st) = (inl resp, w1) ->
  200 <= http.StatusCode resp < 300 ->
  http.ContentLength resp < 0 ->
  hashing.Hash h (io.content (http.Body resp)) <> expectedHash ->
  fetchItem env (Some h) uri expectedHash st
  = (Returns (false, EmptyString, -1),
     mkState w1
       (trace st ++
        [EvHttpGet uri;
         EvAccessLog (Printf "GRPC ASSET FETCH %s %s"
                        [LStr uri; LStr (http.Status resp)]);
         EvErrorLog
           match io.failure (http.Body resp) with
           | Some _ => Printf "failed to read data: %v" [LStr uri]
           | None =>
               Printf "URI data has hash %s, expected %s"
                 [LStr (hashing.Hash h (io.content (http.Body resp)));
                  LStr expectedHash]
           end])).
Proof.
  intros Hne Hparse Hscheme Hget Hcode Hlen Hhash.
  unfold fetchItem. rewrite Hparse, (scheme_supported _ Hscheme).
  unfold_go. rewrite Hget. cbn [world trace].
  rewrite (status_2xx _ Hcode), (eqb_nonempty _ Hne).
  destruct (Z.ltb_spec (http.ContentLength resp) 0); [|lia].
  cbn [orb]. unfold io.ReadAll.
  destruct (io.failure (http.Body resp)) as [e|];
    cbn [world trace negb andb].
  - now rewrite <- !app_assoc.
  - destruct (String.eqb_spec (hashing.Hash h (io.content (http.Body resp)))
                expectedHash); [contradiction|].
    cbn [negb world trace]. now rewrite <- !app_assoc.
Qed.

(** C3: with a non-empty expected hash, a 2xx response that declares a
    length [>= 0] and a [Put] that succeeds (or ends in [io.EOF]),
    [fetchItem] returns [(true, expectedHash, ContentLength)] whatever the
    body is: two responses that differ in their bodies only give the same
    result.  The hasher is not called (it may even be [nil]) and the body
    is handed to [Put] as it came. *)
Theorem fetchItem_result_independent_of_body
    (hasher : option hashing.Hasher) (uri expectedHash : string)
    (u : url.URL) (st st' : State W) (resp resp' : http.Response)
    (w1 w1' w2 w2' : W) (perr perr' : option error) :
  expectedHash <> EmptyString ->
  url_Parse env uri = inl u ->
  url.Scheme u = "http" \/ url.Scheme u = "https" ->
  http_Get env uri (world st) = (inl resp, w1) ->
  http_Get env uri (world st') = (inl resp', w1') ->
  200 <= http.StatusCode resp < 300 ->
  200 <= http.StatusCode resp' < 300 ->
  0 <= http.ContentLength resp ->
  http.ContentLength resp' = http.ContentLength resp ->
  cache_Put env cache.CAS hasher expectedHash (http.ContentLength resp)
    (http.Body resp) w1 = (perr, w2) ->
  cache_Put env cache.CAS hasher expectedHash (http.ContentLength resp)
    (http.Body resp') w1' = (perr', w2') ->
  perr = None \/ perr = Some io_EOF ->
  perr' = None \/ perr' = Some io_EOF ->
  fst (fetchItem env hasher uri expectedHash st)
  = Returns (true, expectedHash, http.ContentLength resp)
  /\ fst (fetchItem env hasher uri expectedHash st')
     = Returns (true, expectedHash, http.ContentLength resp)
  /\ cache_writes (trace (snd (fetchItem env hasher uri expectedHash st)))
     = cache_writes (trace st)
       ++ [(expectedHash, http.ContentLength resp)]
  /\ In (EvPut cache.CAS expectedHash (http.ContentLength resp)
           (http.Body resp))
       (trace (snd (fetchItem env hasher uri expectedHash st))).
Proof.
  intros Hne Hparse Hscheme Hget Hget' Hcode Hcode' Hlen Hlen' Hput Hput'
    Hok Hok'.
  assert (Hlen2 : 0 <= http.ContentLength resp') by lia.
  rewrite <- Hlen' in Hput'.
  rewrite (fetchItem_known_length _ _ _ _ _ _ _ _ _
             Hne Hparse Hscheme Hget Hcode Hlen Hput).
  rewrite (fetchItem_known_length _ _ _ _ _ _ _ _ _
             Hne Hparse Hscheme Hget' Hcode' Hlen2 Hput').
  rewrite Hlen'. cbn [fst snd trace].
  rewrite cache_writes_app.
  destruct Hok as [-> | ->], Hok' as [-> | ->]; cbn [is_EOF];
    (split; [reflexivity|]; split; [reflexivity|]; split;
     [cbn; now rewrite ?app_nil_r
     | apply in_or_app; right; simpl; auto]).
Qed.

(** [fetchItem] sends at most one request, for its own URI, and it has
    sent it when it succeeds. *)
Lemma fetchItem_requests hasher uri hash st r st' :
  fetchItem env hasher uri hash st = (r, st') ->
  exists t, trace st' = trace st ++ t
            /\ (http_requests t = [] \/ http_requests t = [uri])
            /\ (forall a z, r = Returns (true, a, z) ->
                http_requests t = [uri]).
Proof.
  unfold fetchItem, io.ReadAll, notOK. unfold_go.
  repeat break_match; intros H; injection H as <- <-;
    cbn [trace world];
    (eexists; split; [rewrite <- ?app_assoc; reflexivity|]; split;
     [cbn; auto | intros a z [=]; reflexivity]).
Qed.

(** *** Trying the URIs in order *)

Lemma uri_body_requests hasher hash uri st r st' :
  uri_body env hasher hash uri tt st = (r, st') ->
  exists t, trace st' = trace st ++ t
            /\ (http_requests t = [] \/ http_requests t = [uri]).
Proof.
  unfold uri_body. unfold bind at 1.
  destruct (fetchItem env hasher uri hash st) as [[[[ok a] z]|msg] st1] eqn:E;
    apply fetchItem_requests in E; destruct E as (t & E & Ht & _).
  - unfold_go. repeat break_match; intros H; injection H as <- <-; eauto.
  - intros H; injection H as <- <-; eauto.
Qed.

(** The requests a run of the URI loop sends are URIs of the list, in the
    order of the list. *)
Lemma try_uris_in_order hasher hash uris :
  forall st r st',
    try_uris env hasher hash uris st = (r, st') ->
    exists rs, http_requests (trace st') = http_requests (trace st) ++ rs
               /\ in_order rs uris.
Proof.
  unfold try_uris.
  induction uris as [|uri uris IH]; intros st r st'; cbn [for_range].
  - unfold ret. intros H; injection H as <- <-.
    exists []. rewrite app_nil_r. split; [reflexivity|constructor].
  - unfold bind at 1.
    destruct (uri_body env hasher hash uri tt st) as [[[resp|[]]|msg] st1] eqn:E;
      apply uri_body_requests in E; destruct E as (t & E & Ht).
    + unfold ret. intros H; injection H as <- <-.
      rewrite E, http_requests_app.
      destruct Ht as [-> | ->]; eexists; (split; [reflexivity|]);
        first [apply in_order_nil | apply in_order_take, in_order_nil].
    + intros H. apply IH in H. destruct H as (rs & Hrs & Hord).
      rewrite Hrs, E, http_requests_app, <- app_assoc.
      destruct Ht as [-> | ->]; eexists; (split; [reflexivity|]);
        cbn [app];
        first [now apply in_order_skip | now apply in_order_take].
    + intros H; injection H as <- <-.
      rewrite E, http_requests_app.
      destruct Ht as [-> | ->]; eexists; (split; [reflexivity|]);
        first [apply in_order_nil | apply in_order_take, in_order_nil].
Qed.

(** C9: when no qualifier resolved the request, the URIs are tried in the
    order of the request: if [fetchItem] fails for every URI before [u]
    and succeeds for [u], [FetchBlob] returns [OK] with the hash and size
    [fetchItem] returned for [u], with [u] as the URI and with the digest
    function of the hasher in use.  The call ends in the state [fetchItem]
    left for [u]: the URIs after [u] are not tried. *)
Theorem first_successful_uri_wins
    (req : asset.FetchBlobRequest) (pre post : list string) (u : string)
    (st st0 st1 st2 st3 : State W) (hasher0 : option hashing.Hasher)
    (hash : string) (h : hashing.Hasher) (actualHash : string) (size : Z) :
  asset.Uris req = pre ++ u :: post ->
  digest_function_hint env (Some req) st = (Returns hasher0, st0) ->
  try_qualifiers env (asset.Qualifiers req) (EmptyString, hasher0) st0
  = (Returns (Continue (hash, Some h)), st1) ->
  try_uris env (Some h) hash pre st1 = (Returns (Continue tt), st2) ->
  fetchItem env (Some h) u hash st2
  = (Returns (true, actualHash, size), st3) ->
  FetchBlob env (Some req) st
  = (Returns
       (Some (asset.mkResponse
                (Some (status.mkStatus codes.OK EmptyString)) u
                (Some (pb.mkDigest actualHash size))
                (hashing.DigestFunction h)),
        None),
     st3)
  /\ exists rs,
       in_order rs pre
       /\ http_requests (trace st3) = http_requests (trace st) ++ rs ++ [u].
Proof.
  intros Hu Hh Hq Hpre Hfetch. split.
  - rewrite (FetchBlob_after_qualifiers _ _ _ _ _ _ _ Hh Hq), Hu.
    unfold try_uris in *. rewrite for_range_app, Hpre.
    rewrite (for_range_Return _ u post tt st2
               (asset.mkResponse
                  (Some (status.mkStatus codes.OK EmptyString)) u
                  (Some (pb.mkDigest actualHash size))
                  (hashing.DigestFunction h)) st3); [reflexivity|].
    unfold uri_body. rewrite (bind_Returns _ _ _ _ _ Hfetch). reflexivity.
  - destruct (digest_function_hint_quiet _ _ _ _ Hh) as [H0 _].
    destruct (try_qualifiers_quiet _ _ _ _ _ Hq) as (t1 & E1 & H1 & _).
    destruct (try_uris_in_order _ _ _ _ _ _ Hpre) as (rs & E2 & Hord).
    destruct (fetchItem_requests _ _ _ _ _ _ Hfetch) as (t3 & E3 & _ & H3).
    exists rs. split; [exact Hord|].
    rewrite E3, http_requests_app, (H3 _ _ eq_refl), E2, E1,
      http_requests_app, H1, H0, app_nil_r.
    now rewrite app_assoc.
Qed.

(** C1 (amended): a request whose [checksum.sri] digest did not resolve
    from the CAS carries that digest as the expected hash into the URI
    loop.  A 2xx response for [u] that declares no length
    ([ContentLength < 0]) and whose body hashes to another value is
    rejected: [fetchItem] returns [false] and writes nothing to the cache.
    If the URIs before and after [u] fail too, [FetchBlob] returns the
    embedded [NotFound]. *)
Theorem mismatch_rejected_when_length_unknown
    (req : asset.FetchBlobRequest) (pre post : list string) (u : string)
    (st st0 st1 st2 st4 : State W) (hasher0 : option hashing.Hasher)
    (hash : string) (h : hashing.Hasher) (parsed : url.URL)
    (resp : http.Response) (w3 : W) :
  asset.Uris req = pre ++ u :: post ->
  digest_function_hint env (Some req) st = (Returns hasher0, st0) ->
  try_qualifiers env (asset.Qualifiers req) (EmptyString, hasher0) st0
  = (Returns (Continue (hash, Some h)), st1) ->
  hash <> EmptyString ->
  try_uris env (Some h) hash pre st1 = (Returns (Continue tt), st2) ->
  url_Parse env u = inl parsed ->
  url.Scheme parsed = "http" \/ url.Scheme parsed = "https" ->
  http_Get env u (world st2) = (inl resp, w3) ->
  200 <= http.StatusCode resp < 300 ->
  http.ContentLength resp < 0 ->
  hashing.Hash h (io.content (http.Body resp)) <> hash ->
  try_uris env (Some h) hash post
    (snd (fetchItem env (Some h) u hash st2))
  = (Returns (Continue tt), st4) ->
  fst (fetchItem env (Some h) u hash st2) = Returns (false, EmptyString, -1)
  /\ cache_writes (trace (snd (fetchItem env (Some h) u hash st2)))
     = cache_writes (trace st2)
  /\ FetchBlob env (Some req) st
     = (Returns
          (Some (asset.mkResponse
                   (Some (status.mkStatus codes.NotFound EmptyString))
                   EmptyString None hashing.DigestFunction_UNKNOWN),
           None),
        st4).
Proof.
  intros Hu Hh Hq Hne Hpre Hparse Hscheme Hget Hcode Hlen Hhash Hpost.
  pose proof (fetchItem_mismatch_buffered _ _ _ _ _ _ _
                Hne Hparse Hscheme Hget Hcode Hlen Hhash) as Hfetch.
  rewrite Hfetch in *. cbn [fst snd trace] in *.
  split; [reflexivity|]. split.
  - rewrite cache_writes_app. cbn. now rewrite app_nil_r.
  - rewrite (FetchBlob_after_qualifiers _ _ _ _ _ _ _ Hh Hq), Hu.
    unfold try_uris in *. rewrite for_range_app, Hpre.
    cbn [for_range]. unfold uri_body at 1.
    rewrite (bind_Returns _ _ _ _ _
               (bind_Returns _ _ _ _ _ Hfetch : bind _ _ st2 = _)).
    rewrite Hpost. reflexivity.
Qed.

End Asset.

Lemma checksum_sri_without_separator_panics_witness :
  strings.cut "-" "sha256" = None
  /\ exists st1,
       server.FetchBlob fixture.env
         (Some (asset.mkRequest [fixture.uri_blob]
                  [fixture.checksum "sha256"]
                  hashing.DigestFunction_UNKNOWN))
         (fixture.start [])
       = (server.Panics "index out of range", st1).
Proof.
  split; [reflexivity|]. eexists.
  eapply (checksum_sri_without_separator_panics fixture.env
            (asset.mkRequest [fixture.uri_blob] [fixture.checksum "sha256"]
               hashing.DigestFunction_UNKNOWN)
            "sha256" [] []);
    reflexivity.
Defined.

(* ------------------------------------------------------------------ *)
(** ** The theorems at concrete requests *)

(** C5, counterexample: on a [nil] request the registry lookup and its
    error line precede the return; the call does not return "before any
    other work". *)
Lemma FetchBlob_nil_request_resolves_hint_first :
  server.FetchBlob fixture.env None (fixture.start [])
  = (server.Returns (None, Some server.errNilFetchBlobRequest),
     server.mkState (fixture.mkWorld [] fixture.blob)
       [server.EvHashingGet hashing.DigestFunction_UNKNOWN;
        server.EvErrorLog
          (Printf "Unknown digest function %d: %v"
             [LInt 0;
              LErr (Some (fmt_Errorf "unsupported digest function %d"
                            [ArgInt 0]))])])
  /\ server.FetchBlob fixture.env None (fixture.start [])
     <> (server.Returns (None, Some server.errNilFetchBlobRequest),
         fixture.start []).
Proof. split; [reflexivity|discriminate]. Qed.

Lemma nil_qualifier_aborts_witness :
  exists st1,
    server.FetchBlob fixture.env (Some fixture.nil_qualifier_request)
      (fixture.start [(fixture.blob_digest, 5)])
    = (server.Returns
         (Some (asset.mkResponse
                  (Some (status.mkStatus codes.InvalidArgument
                           "unexpected nil qualifier in FetchBlobRequest"))
                  EmptyString None hashing.DigestFunction_UNKNOWN),
          None),
       st1)
    /\ server.http_requests (server.trace st1) = []
    /\ server.cache_writes (server.trace st1) = [].
Proof.
  eexists.
  eapply (nil_qualifier_aborts fixture.env fixture.nil_qualifier_request
            [fixture.checksum fixture.sri_empty]
            [fixture.checksum fixture.sri_blob]
            (fixture.start [(fixture.blob_digest, 5)]));
    reflexivity.
Defined.

Lemma checksum_sri_hit_resolves_witness :
  exists st2,
    server.FetchBlob fixture.env (Some fixture.two_checksums_request)
      (fixture.start [(fixture.blob_digest, 5)])
    = (server.Returns
         (Some (asset.mkResponse
                  (Some (status.mkStatus codes.OK EmptyString)) EmptyString
                  (Some (pb.mkDigest
                           (hashing.Hash hashing.sha512Hasher fixture.blob)
                           5))
                  hashing.DigestFunction_SHA512),
          None),
       st2)
    /\ server.http_requests (server.trace st2) = [].
Proof.
  edestruct (checksum_sri_hit_resolves fixture.env
               fixture.two_checksums_request
               [fixture.checksum fixture.sri_empty] [None]
               "sha512" fixture.b64_blob
               (sha512.Sum512 fixture.blob) hashing.sha512Hasher 5
               (fixture.start [(fixture.blob_digest, 5)])) as [H1 H2];
    [reflexivity | reflexivity | vm_compute; reflexivity | reflexivity
    | vm_compute; reflexivity | reflexivity | reflexivity
    | vm_compute; reflexivity | vm_compute; discriminate | ].
  eexists. split; [exact H1 | exact H2].
Defined.

Lemma first_successful_uri_wins_witness :
  exists st3,
    server.FetchBlob fixture.env (Some fixture.three_uris_request)
      (fixture.start [])
    = (server.Returns
         (Some (asset.mkResponse
                  (Some (status.mkStatus codes.OK EmptyString))
                  fixture.uri_stream
                  (Some (pb.mkDigest fixture.blob_digest 5))
                  hashing.DigestFunction_SHA512),
          None),
       st3)
    /\ server.http_requests (server.trace st3)
       = [fixture.uri_404; fixture.uri_stream].
Proof.
  edestruct (first_successful_uri_wins fixture.env
               fixture.three_uris_request)
    with (pre := [fixture.uri_404]) (post := [fixture.uri_blob])
         (u := fixture.uri_stream) (st := fixture.start [])
         (h := hashing.sha512Hasher)
    as [H _];
    [reflexivity | reflexivity | reflexivity | reflexivity
    | vm_compute; reflexivity | ].
  eexists. split; [exact H | reflexivity].
Defined.

Lemma fetchItem_result_independent_of_body_witness :
  fst (server.fetchItem fixture.env None fixture.uri_blob
         fixture.empty_digest
         (fixture.start_serving (list_byte_of_string "hello")))
  = server.Returns (true, fixture.empty_digest, 5)
  /\ fst (server.fetchItem fixture.env None fixture.uri_blob
            fixture.empty_digest
            (fixture.start_serving (list_byte_of_string "jelly")))
     = server.Returns (true, fixture.empty_digest, 5).
Proof.
  edestruct (fetchItem_result_independent_of_body fixture.env None
               fixture.uri_blob fixture.empty_digest (url.mkURL "http")
               (fixture.start_serving (list_byte_of_string "hello"))
               (fixture.start_serving (list_byte_of_string "jelly")))
    as (H1 & H2 & _);
    [discriminate | reflexivity | left; reflexivity
    | reflexivity | reflexivity | simpl; lia | simpl; lia | simpl; lia
    | reflexivity | reflexivity | reflexivity
    | left; reflexivity | left; reflexivity | ].
  split; [exact H1 | exact H2].
Defined.

(** C1, counterexample: the checksum names the digest of the empty blob,
    the mirror serves ["hello"] and declares its length.  The bytes are
    written to the cache under the expected hash and [FetchBlob] answers
    [OK] with that hash, although the blob hashes to another value. *)
Lemma wrong_digest_accepted_when_length_declared :
  fst (server.FetchBlob fixture.env (Some fixture.wrong_digest_request)
         (fixture.start []))
  = server.Returns
      (Some (asset.mkResponse
               (Some (status.mkStatus codes.OK EmptyString))
               fixture.uri_blob
               (Some (pb.mkDigest fixture.empty_digest 5))
               hashing.DigestFunction_SHA512),
       None)
  /\ server.cache_writes
       (server.trace
          (snd (server.FetchBlob fixture.env
                  (Some fixture.wrong_digest_request) (fixture.start []))))
     = [(fixture.empty_digest, 5)]
  /\ hashing.Hash hashing.sha512Hasher fixture.blob <> fixture.empty_digest
  /\ hashing.Hash hashing.sha512Hasher [] = fixture.empty_digest.
Proof.
  split; [vm_compute; reflexivity|].
  split; [vm_compute; reflexivity|].
  split; [vm_compute; discriminate | vm_compute; reflexivity].
Qed.

Lemma mismatch_rejected_when_length_unknown_witness :
  exists st4,
    server.FetchBlob fixture.env (Some fixture.wrong_digest_stream_request)
      (fixture.start [])
    = (server.Returns
         (Some (asset.mkResponse
                  (Some (status.mkStatus codes.NotFound EmptyString))
                  EmptyString None hashing.DigestFunction_UNKNOWN),
          None),
       st4).
Proof.
  eexists.
  eapply (mismatch_rejected_when_length_unknown fixture.env
            fixture.wrong_digest_stream_request
            [fixture.uri_404] [] fixture.uri_stream (fixture.start []));
    [reflexivity | reflexivity | reflexivity | discriminate | reflexivity
    | reflexivity | left; reflexivity | reflexivity
    | simpl; lia | simpl; lia | vm_compute; discriminate
    | vm_compute; reflexivity ].
Defined.

(* ================================================================== *)
(** * Further properties *)

(** ** Cache keys and hash types *)

(** X1: [LookupKey] is injective: two entries have the same key only if
    they have the same kind and the same hash. *)
Theorem LookupKey_injective (k1 k2 : cache.EntryKind) (h1 h2 : string) :
  cache.LookupKey k1 h1 = cache.LookupKey k2 h2 -> k1 = k2 /\ h1 = h2.
Proof.
  destruct k1, k2; cbn; intros H; try discriminate;
    injection H as ->; auto.
Qed.

Lemma LookupKey_injective_witness :
  cache.LookupKey cache.CAS "ab" = cache.LookupKey cache.CAS "ab"
  /\ cache.CAS = cache.CAS /\ "ab" = "ab".
Proof.
  split; [reflexivity|].
  apply (LookupKey_injective cache.CAS cache.CAS "ab" "ab"). reflexivity.
Defined.

(** X2: [IsEmptyHash(GetHashType(hash), hash)] holds for the four
    constants of [EmptyHashes] and, as the type of a hash of any other
    length is [0] and [EmptyHashes[0]] is the zero value, for the empty
    string; for no other string. *)
Theorem IsEmptyHash_GetHashType (hash : string) :
  cache.IsEmptyHash (cache.GetHashType hash) hash = true
  <-> hash = EmptyString \/ In hash (map snd cache.EmptyHashes).
Proof.
  unfold cache.IsEmptyHash, cache.GetHashType. split.
  - destruct (len hash =? 32);
      [|destruct (len hash =? 40);
        [|destruct (len hash =? 64); [|destruct (len hash =? 128)]]];
      intros H; apply String.eqb_eq in H; rewrite H; cbn; auto 6.
  - intros [-> | [<- | [<- | [<- | [<- | []]]]]]; reflexivity.
Qed.

Lemma sha256_Sum_length (d : sha256.digest) :
  List.length (sha256.Sum d []) = 32%nat.
Proof.
  unfold sha256.Sum, sha2.Sum, sha2.checkSum.
  now rewrite app_nil_l, regs_bytes_length.
Qed.

Lemma TransformActionCacheKey_nonempty (k i : string) :
  i <> EmptyString ->
  fst (cache.TransformActionCacheKey k i)
  = hex.EncodeToString
      (sha256.Sum (sha256.Write sha256.New (list_byte_of_string (k ++ i)%string))
         []).
Proof.
  intros Hi. unfold cache.TransformActionCacheKey.
  destruct (String.eqb_spec i EmptyString); [contradiction|].
  cbn [fst]. now rewrite sha256_Write_app, list_byte_of_string_app.
Qed.

(** X3: a key remapped for a non-empty instance name has the type
    [crypto.SHA256], whatever the type of the key it was made from. *)
Theorem GetHashType_TransformActionCacheKey (k i : string) :
  i <> EmptyString ->
  cache.GetHashType (fst (cache.TransformActionCacheKey k i))
  = crypto.SHA256.
Proof.
  intros Hi. rewrite (TransformActionCacheKey_nonempty _ _ Hi).
  unfold cache.GetHashType.
  now rewrite len_EncodeToString, sha256_Sum_length.
Qed.

Lemma GetHashType_TransformActionCacheKey_witness :
  "main" <> EmptyString
  /\ cache.GetHashType
       (fst (cache.TransformActionCacheKey
               (hashing.Hash hashing.sha512Hasher []) "main"))
     = crypto.SHA256.
Proof.
  split; [discriminate|].
  apply (GetHashType_TransformActionCacheKey
           (hashing.Hash hashing.sha512Hasher []) "main").
  discriminate.
Defined.

(** X4: [GetHashType] takes every digest of the SHA-512 hasher for
    [crypto.SHA512]; it has no case for the 96 characters of a digest of
    the SHA-384 hasher and returns [0] for each of them. *)
Theorem GetHashType_of_digests (data : list byte) :
  cache.GetHashType (hashing.Hash hashing.sha512Hasher data) = crypto.SHA512
  /\ cache.GetHashType (hashing.Hash hashing.sha384Hasher data) = 0.
Proof.
  unfold cache.GetHashType.
  cbn [hashing.Hash hashing.sha512Hasher hashing.sha384Hasher].
  unfold hashing.sha512_Hash, hashing.sha384_Hash.
  now rewrite !len_EncodeToString, Sum512_length, Sum384_length.
Qed.

(** X5: [TransformActionCacheKey] joins key and instance name without a
    separator: pairs with non-empty instance names and the same
    concatenation are remapped to the same key. *)
Theorem TransformActionCacheKey_concatenation (k1 i1 k2 i2 : string) :
  i1 <> EmptyString -> i2 <> EmptyString ->
  (k1 ++ i1)%string = (k2 ++ i2)%string ->
  fst (cache.TransformActionCacheKey k1 i1)
  = fst (cache.TransformActionCacheKey k2 i2).
Proof.
  intros H1 H2 E.
  now rewrite !TransformActionCacheKey_nonempty, E by assumption.
Qed.

Lemma TransformActionCacheKey_concatenation_witness :
  fst (cache.TransformActionCacheKey "ab" "c")
  = fst (cache.TransformActionCacheKey "a" "bc").
Proof.
  apply (TransformActionCacheKey_concatenation "ab" "c" "a" "bc");
    [discriminate | discriminate | reflexivity].
Defined.

(** ** The hashers *)

(** the two checks of [Validate]: the length, then the pattern *)
Lemma length_then_pattern (n : nat) (value : string) (e1 e2 : error) :
  (if negb (Z.of_nat n =? len value) then Some e1
   else if negb (regexp.match_repeat regexp.lower_hex n value) then Some e2
   else None) = None
  <-> len value = Z.of_nat n
      /\ Forall (fun c => regexp.lower_hex c = true)
           (list_ascii_of_string value).
Proof.
  pose proof (match_repeat_spec regexp.lower_hex n value) as M.
  destruct (Z.eqb_spec (Z.of_nat n) (len value)) as [E|E]; cbn [negb].
  - destruct (regexp.match_repeat regexp.lower_hex n value); cbn [negb];
      split; intros H.
    + split; [auto|]. now apply M.
    + reflexivity.
    + discriminate.
    + destruct H as [_ H]. unfold len in E.
      assert (false = true) by (apply M; split; [lia|exact H]).
      discriminate.
  - split; [discriminate|]. intros [H _]. congruence.
Qed.

(** X6: [Validate] of a registered hasher accepts exactly the strings of
    [2 * Size()] characters of [[a-f0-9]]. *)
Theorem Validate_accepts (h : hashing.Hasher) (value : string) :
  In h hashing.registered ->
  (hashing.Validate h value = None
   <-> len value = 2 * hashing.Size h
       /\ Forall (fun c => regexp.lower_hex c = true)
            (list_ascii_of_string value)).
Proof.
  intros [<-|[<-|[]]].
  - exact (length_then_pattern 96 value _ _).
  - exact (length_then_pattern 128 value _ _).
Qed.

Lemma Validate_accepts_witness :
  hashing.Validate hashing.sha512Hasher
    (hashing.Empty hashing.sha512Hasher) = None
  <-> len (hashing.Empty hashing.sha512Hasher) = 2 * 64
      /\ Forall (fun c => regexp.lower_hex c = true)
           (list_ascii_of_string (hashing.Empty hashing.sha512Hasher)).
Proof.
  apply (Validate_accepts hashing.sha512Hasher
           (hashing.Empty hashing.sha512Hasher)).
  simpl; auto.
Defined.

(** X7: the SHA-512 hasher's [ValidateDigest] accepts the digest of every
    blob together with the blob's length, the empty blob included. *)
Theorem sha512_ValidateDigest_of_blob (data : list byte) :
  hashing.ValidateDigest hashing.sha512Hasher
    (hashing.Hash hashing.sha512Hasher data) (Z.of_nat (List.length data))
  = None.
Proof.
  cbn [hashing.ValidateDigest hashing.Hash hashing.sha512Hasher].
  unfold hashing.sha512_ValidateDigest.
  destruct data as [|b data].
  - vm_compute. reflexivity.
  - destruct (Z.eqb_spec (Z.of_nat (List.length (b :: data))) 0) as [E|_];
      [cbn [List.length] in E; lia|].
    apply sha512_Validate_Hash.
Qed.

(** X8: the SHA-384 hasher's [ValidateDigest] accepts the digest of a
    blob together with the blob's length if and only if the blob is not
    empty: for size [0] it compares with [Empty()], which is not the
    SHA-384 digest of the empty blob. *)
Theorem sha384_ValidateDigest_of_blob (data : list byte) :
  hashing.ValidateDigest hashing.sha384Hasher
    (hashing.Hash hashing.sha384Hasher data) (Z.of_nat (List.length data))
  = None
  <-> data <> [].
Proof.
  cbn [hashing.ValidateDigest hashing.Hash hashing.sha384Hasher].
  unfold hashing.sha384_ValidateDigest.
  destruct data as [|b data].
  - split; [vm_compute; discriminate | intros H; now contradiction H].
  - destruct (Z.eqb_spec (Z.of_nat (List.length (b :: data))) 0) as [E|_];
      [cbn [List.length] in E; lia|].
    split; [discriminate | intros _; apply sha384_Validate_Hash].
Qed.

(** X9: for each registered hasher, writing a blob in two pieces to the
    hash it returns from [New()] and taking [Sum(nil)] gives, in
    hexadecimal, what [Hash] gives for the whole blob. *)
Theorem New_streams_to_Hash (h : hashing.Hasher) (a b : list byte) :
  In h hashing.registered ->
  let s := hashing.New h in
  hex.EncodeToString
    (hashing.Sum s
       (hashing.Write s (hashing.Write s (hashing.state s) a) b) [])
  = hashing.Hash h (a ++ b).
Proof.
  intros [<-|[<-|[]]];
    cbn [hashing.New hashing.Hash hashing.sha384Hasher hashing.sha512Hasher
         hashing.sha384_New hashing.sha512_New hashing.state hashing.Write
         hashing.Sum];
    unfold sha512.Write; rewrite Write_app by (vm_compute; lia);
    reflexivity.
Qed.

Lemma New_streams_to_Hash_witness :
  let s := hashing.New hashing.sha384Hasher in
  hex.EncodeToString
    (hashing.Sum s
       (hashing.Write s
          (hashing.Write s (hashing.state s) (list_byte_of_string "ab"))
          (list_byte_of_string "c")) [])
  = hashing.Hash hashing.sha384Hasher (list_byte_of_string "abc").
Proof.
  apply (New_streams_to_Hash hashing.sha384Hasher
           (list_byte_of_string "ab") (list_byte_of_string "c")).
  simpl; auto.
Defined.

(** ** Test data *)

Section RandomData.
Context {R : Type}
  (rand_Read : nat -> R -> (list byte * option error) * R)
  (crypto_New : crypto.Hash -> option hashing.hash_Hash).

Lemma overwrite_length (b rnd : list byte) :
  List.length (testutils.overwrite b rnd) = List.length b.
Proof.
  unfold testutils.overwrite.
  rewrite length_app, length_firstn, length_skipn. lia.
Qed.

Lemma read_random_length (tries : nat) :
  forall data r,
    List.length (fst (testutils.read_random rand_Read tries data r))
    = List.length data.
Proof.
  induction tries as [|tries IH]; intros data r; cbn [testutils.read_random];
    [reflexivity|].
  destruct (rand_Read (List.length data) r) as [[rnd [e|]] r'].
  - now rewrite IH, overwrite_length.
  - cbn [fst]. apply overwrite_length.
Qed.

(** X10: for a size [>= 0], [RandomDataAndSHA256Digest] returns a blob of
    exactly [size] bytes and the digest made of the SHA-256 of that blob
    and of [size], whatever the source of randomness delivers and however
    often it fails. *)
Theorem RandomDataAndSHA256Digest_matches (size : Z) (r : R) :
  0 <= size ->
  crypto_New crypto.SHA256
  = Some (hashing.mkHash sha256.New sha256.Write sha256.Sum) ->
  exists data r',
    testutils.RandomDataAndSHA256Digest rand_Read crypto_New size r
    = (server.Returns
         (data,
          pb.mkDigest (hex.EncodeToString (sha256.Sum256 data)) size),
       r')
    /\ Z.of_nat (List.length data) = size.
Proof.
  intros Hsize Hnew.
  unfold testutils.RandomDataAndSHA256Digest, testutils.RandomDataAndSHA256,
    testutils.RandomDataAndHash, testutils.make.
  destruct (Z.ltb_spec size 0); [lia|].
  pose proof (read_random_length 3 (repeat x00 (Z.to_nat size)) r) as L.
  destruct (testutils.read_random rand_Read 3 (repeat x00 (Z.to_nat size)) r)
    as [data r'].
  rewrite Hnew. cbn [hashing.state hashing.Write hashing.Sum].
  exists data, r'. split; [reflexivity|].
  cbn [fst] in L. rewrite L, repeat_length. lia.
Qed.

End RandomData.

Lemma RandomDataAndSHA256Digest_matches_witness :
  exists data r',
    testutils.RandomDataAndSHA256Digest testutils.flaky_Read
      testutils.sha2_New 9 0%nat
    = (server.Returns
         (data, pb.mkDigest (hex.EncodeToString (sha256.Sum256 data)) 9),
       r')
    /\ Z.of_nat (List.length data) = 9.
Proof.
  apply (RandomDataAndSHA256Digest_matches testutils.flaky_Read
           testutils.sha2_New 9 0%nat); [lia | reflexivity].
Defined.

(** ** More on the asset server *)


Section AssetMore.
Context {W : Type} (env : server.Env W).
Import server.

(** *** Qualifiers of other names *)

Lemma unrecognised_skipped q v st :
  unrecognised q = true ->
  qualifier_body env q v st = (Returns (Continue v), st).
Proof.
  destruct q as [q|]; [|discriminate]. cbn [unrecognised].
  unfold qualifier_body.
  destruct (String.eqb (asset.Name q) "checksum.sri"); [discriminate|].
  reflexivity.
Qed.

Lemma try_qualifiers_filter qs :
  forall v st,
    try_qualifiers env qs v st
    = try_qualifiers env (filter (fun q => negb (unrecognised q)) qs) v st.
Proof.
  unfold try_qualifiers.
  induction qs as [|q qs IH]; intros v st; [reflexivity|].
  cbn [filter]. destruct (unrecognised q) eqn:E; cbn [negb for_range].
  - unfold bind at 1. rewrite (unrecognised_skipped _ _ _ E). apply IH.
  - unfold bind.
    destruct (qualifier_body env q v st) as [[[resp|v1]|msg] st1]; auto.
Qed.

(** X11: qualifiers that are not [nil] and whose name is not
    [checksum.sri] are passed over: [FetchBlob] returns the same result
    and leaves the same state and trace as for the request without
    them. *)
Theorem FetchBlob_ignores_unrecognised
    (req : asset.FetchBlobRequest) (st : State W) :
  FetchBlob env (Some req) st
  = FetchBlob env (Some (without_unrecognised req)) st.
Proof.
  unfold FetchBlob.
  rewrite (bind_Returns _ _ _ _ _
             (digest_function_hint_runs env (Some req) st)).
  rewrite (bind_Returns _ _ _ _ _
             (digest_function_hint_runs env
                (Some (without_unrecognised req)) st)).
  cbn [asset.GetDigestFunction asset.GetQualifiers asset.GetUris
       without_unrecognised asset.DigestFunction asset.Qualifiers
       asset.Uris].
  unfold bind at 1 3. now rewrite try_qualifiers_filter.
Qed.

(** *** The outcomes of [fetchItem] *)

(** a successful [fetchItem] has sent its request and written once *)
Lemma fetchItem_success hasher uri expectedHash st hash size st' :
  fetchItem env hasher uri expectedHash st
  = (Returns (true, hash, size), st') ->
  exists t, trace st' = trace st ++ t
            /\ http_requests t = [uri]
            /\ cache_writes t = [(hash, size)].
Proof.
  unfold fetchItem, io.ReadAll, notOK. unfold_go.
  repeat break_match; intros H; try discriminate H;
    injection H as <- <- <-; cbn [trace world];
    (eexists; split; [rewrite <- ?app_assoc; reflexivity|]);
    cbn; auto.
Qed.


(** X13: a URI that [url.Parse] rejects, or whose scheme is neither
    [http] nor [https], is not fetched: [fetchItem] logs one error line
    and returns [false]; the outside world is left as it was. *)
Theorem fetchItem_unsupported_uri
    (hasher : option hashing.Hasher) (uri expectedHash : string)
    (st : State W) :
  match url_Parse env uri with
  | inl u => url.Scheme u <> "http" /\ url.Scheme u <> "https"
  | inr _ => True
  end ->
  exists l,
    fetchItem env hasher uri expectedHash st
    = (Returns (false, EmptyString, -1),
       mkState (world st) (trace st ++ [EvErrorLog l])).
Proof.
  unfold fetchItem. destruct (url_Parse env uri) as [u|e].
  - intros [H1 H2].
    destruct (String.eqb_spec (url.Scheme u) "http"); [contradiction|].
    destruct (String.eqb_spec (url.Scheme u) "https"); [contradiction|].
    cbn [negb andb]. unfold_go. eauto.
  - intros _. unfold_go. eauto.
Qed.

(** X14: a response whose status is not in [200, 300) ends the attempt
    after the access log line: the body is not read, nothing is hashed
    (the hasher may be [nil]) and nothing is written to the cache. *)
Theorem fetchItem_non_2xx
    (hasher : option hashing.Hasher) (uri expectedHash : string)
    (u : url.URL) (st : State W) (resp : http.Response) (w1 : W) :
  url_Parse env uri = inl u ->
  url.Scheme u = "http" \/ url.Scheme u = "https" ->
  http_Get env uri (world st) = (inl resp, w1) ->
  http.StatusCode resp < 200 \/ 300 <= http.StatusCode resp ->
  fetchItem env hasher uri expectedHash st
  = (Returns (false, EmptyString, -1),
     mkState w1
       (trace st ++
        [EvHttpGet uri;
         EvAccessLog (Printf "GRPC ASSET FETCH %s %s"
                        [LStr uri; LStr (http.Status resp)])])).
Proof.
  intros Hparse Hscheme Hget Hcode.
  unfold fetchItem. rewrite Hparse, (scheme_supported _ Hscheme).
  unfold_go. rewrite Hget. cbn [world trace].
  assert (E : (http.StatusCode resp <? 200)
              || (http.StatusCode resp >=? 300) = true).
  { rewrite Z.geb_leb. apply orb_true_iff.
    destruct Hcode; [left; now apply Z.ltb_lt | right; now apply Z.leb_le]. }
  rewrite E. now rewrite <- app_assoc.
Qed.

(** the path of [fetchItem] that reads the body, hashes it and writes
    it, whatever [Put] answers *)
Lemma fetchItem_reads_and_hashes
    (h : hashing.Hasher) (uri expectedHash : string) (u : url.URL)
    (st : State W) (resp : http.Response) (w1 w2 : W)
    (perr : option error) :
  url_Parse env uri = inl u ->
  url.Scheme u = "http" \/ url.Scheme u = "https" ->
  http_Get env uri (world st) = (inl resp, w1) ->
  200 <= http.StatusCode resp < 300 ->
  io.failure (http.Body resp) = None ->
  expectedHash = EmptyString
  \/ (http.ContentLength resp < 0
      /\ hashing.Hash h (io.content (http.Body resp)) = expectedHash) ->
  cache_Put env cache.CAS (Some h)
    (hashing.Hash h (io.content (http.Body resp)))
    (Z.of_nat (List.length (io.content (http.Body resp))))
    (io.NopCloser_NewReader (io.content (http.Body resp))) w1
  = (perr, w2) ->
  let hash := hashing.Hash h (io.content (http.Body resp)) in
  let size := Z.of_nat (List.length (io.content (http.Body resp))) in
  let failed := match perr with
                | Some e => negb (is_EOF e)
                | None => false
                end in
  fetchItem env (Some h) uri expectedHash st
  = (Returns (if failed then notOK else (true, hash, size)),
     mkState w2
       (trace st ++
        [EvHttpGet uri;
         EvAccessLog (Printf "GRPC ASSET FETCH %s %s"
                        [LStr uri; LStr (http.Status resp)]);
         EvPut cache.CAS hash size
           (io.NopCloser_NewReader (io.content (http.Body resp)))] ++
        if failed
        then [EvErrorLog (Printf "failed to Put %s: %v"
                            [LStr hash; LErr perr])]
        else [])).
Proof.
  intros Hparse Hscheme Hget Hcode Hread Hcase Hput hash size failed.
  unfold fetchItem. rewrite Hparse, (scheme_supported _ Hscheme).
  unfold_go. rewrite Hget. cbn [world trace].
  rewrite (status_2xx _ Hcode).
  assert (E1 : String.eqb expectedHash EmptyString
               || (http.ContentLength resp <? 0) = true).
  { destruct Hcase as [-> | [Hlen _]]; [reflexivity|].
    apply orb_true_iff. right. now apply Z.ltb_lt. }
  assert (E2 : negb (String.eqb expectedHash EmptyString)
               && negb (String.eqb
                          (hashing.Hash h (io.content (http.Body resp)))
                          expectedHash) = false).
  { destruct Hcase as [-> | [_ <-]]; [reflexivity|].
    rewrite String.eqb_refl. apply andb_false_r. }
  rewrite E1. unfold io.ReadAll. rewrite Hread, E2.
  cbn [world trace]. rewrite Hput. subst failed hash size.
  destruct perr as [e|]; [destruct (is_EOF e)|];
    cbn [negb world trace]; rewrite <- ?app_assoc; cbn [app];
    reflexivity.
Qed.

(** X15: when the body has to be read (no expected hash, or no declared
    length) and hashes to the expected value if there is one, the blob is
    written to the cache under the hash the hasher computes and under the
    number of bytes read, and these two are returned; the declared
    [ContentLength] is not used. *)
Theorem fetchItem_buffered
    (h : hashing.Hasher) (uri expectedHash : string) (u : url.URL)
    (st : State W) (resp : http.Response) (w1 w2 : W)
    (perr : option error) :
  url_Parse env uri = inl u ->
  url.Scheme u = "http" \/ url.Scheme u = "https" ->
  http_Get env uri (world st) = (inl resp, w1) ->
  200 <= http.StatusCode resp < 300 ->
  io.failure (http.Body resp) = None ->
  expectedHash = EmptyString
  \/ (http.ContentLength resp < 0
      /\ hashing.Hash h (io.content (http.Body resp)) = expectedHash) ->
  cache_Put env cache.CAS (Some h)
    (hashing.Hash h (io.content (http.Body resp)))
    (Z.of_nat (List.length (io.content (http.Body resp))))
    (io.NopCloser_NewReader (io.content (http.Body resp))) w1
  = (perr, w2) ->
  perr = None \/ perr = Some io_EOF ->
  fetchItem env (Some h) uri expectedHash st
  = (Returns (true, hashing.Hash h (io.content (http.Body resp)),
              Z.of_nat (List.length (io.content (http.Body resp)))),
     mkState w2
       (trace st ++
        [EvHttpGet uri;
         EvAccessLog (Printf "GRPC ASSET FETCH %s %s"
                        [LStr uri; LStr (http.Status resp)]);
         EvPut cache.CAS (hashing.Hash h (io.content (http.Body resp)))
           (Z.of_nat (List.length (io.content (http.Body resp))))
           (io.NopCloser_NewReader (io.content (http.Body resp)))])).
Proof.
  intros Hparse Hscheme Hget Hcode Hread Hcase Hput Hok.
  rewrite (fetchItem_reads_and_hashes _ _ _ _ _ _ _ _ _
             Hparse Hscheme Hget Hcode Hread Hcase Hput).
  destruct Hok as [-> | ->]; reflexivity.
Qed.

(** X16: with a [nil] hasher, [fetchItem] panics as soon as it has to
    hash a body it has read: a 2xx response, read without error, for a
    call without expected hash or a response without declared length.
    The request has been sent, nothing is written to the cache. *)
Theorem fetchItem_nil_hasher_panics
    (uri expectedHash : string) (u : url.URL) (st : State W)
    (resp : http.Response) (w1 : W) :
  url_Parse env uri = inl u ->
  url.Scheme u = "http" \/ url.Scheme u = "https" ->
  http_Get env uri (world st) = (inl resp, w1) ->
  200 <= http.StatusCode resp < 300 ->
  io.failure (http.Body resp) = None ->
  expectedHash = EmptyString \/ http.ContentLength resp < 0 ->
  fetchItem env None uri expectedHash st
  = (Panics "invalid memory address or nil pointer dereference",
     mkState w1
       (trace st ++
        [EvHttpGet uri;
         EvAccessLog (Printf "GRPC ASSET FETCH %s %s"
                        [LStr uri; LStr (http.Status resp)])])).
Proof.
  intros Hparse Hscheme Hget Hcode Hread Hcase.
  unfold fetchItem. rewrite Hparse, (scheme_supported _ Hscheme).
  unfold_go. rewrite Hget. cbn [world trace].
  rewrite (status_2xx _ Hcode).
  assert (E1 : String.eqb expectedHash EmptyString
               || (http.ContentLength resp <? 0) = true).
  { destruct Hcase as [-> | Hlen]; [reflexivity|].
    apply orb_true_iff. right. now apply Z.ltb_lt. }
  rewrite E1. unfold io.ReadAll. rewrite Hread.
  now rewrite <- app_assoc.
Qed.

(** *** Checksums and the cache *)

(** the first steps of the loop body for a well-formed checksum, up to
    the answer of [Contains] *)
Lemma checksum_sri_lookup (algo b64 : string) (decoded : list byte)
    (h : hashing.Hasher) (v : Vars) (st : State W)
    (found : bool) (size : Z) (w1 : W) :
  strings.cut "-" algo = None ->
  base64.DecodeString b64 = Some decoded ->
  hashing_Get env (hashing_DigestFunction env algo) = (Some h, None) ->
  hashing.Validate h (hex.EncodeToString decoded) = None ->
  cache_Contains env cache.CAS (Some h) (hex.EncodeToString decoded) (-1)
    (world st) = ((found, size), w1) ->
  let df := hashing_DigestFunction env algo in
  let hash := hex.EncodeToString decoded in
  let st1 := mkState w1 (trace st ++ [EvHashingGet df;
                                      EvContains cache.CAS hash (-1)]) in
  qualifier_body env
    (Some (asset.mkQualifier "checksum.sri" (algo ++ String "-" b64)%string))
    v st
  = if negb found then (Returns (Continue (hash, Some h)), st1)
    else if size <? 0 then
      let '(_, actualSize, gerr) :=
        fst (cache_Get env cache.CAS (Some h) hash (-1) 0 w1) in
      let st2 :=
        mkState (snd (cache_Get env cache.CAS (Some h) hash (-1) 0 w1))
          (trace st1 ++ [EvCacheGet cache.CAS hash (-1) 0]) in
      if (match gerr with Some _ => true | None => false end)
         || (actualSize <? 0)
      then
        (Returns (Continue (hash, Some h)),
         mkState (world st2)
           (trace st2 ++
            [EvErrorLog
               (Printf
                  "failed to get CAS %s from proxy backend size: %d err: %v"
                  [LStr hash; LInt actualSize; LErr gerr])]))
      else (Returns (Return (resolved df hash actualSize)), st2)
    else (Returns (Return (resolved df hash size)), st1).
Proof.
  intros Halgo Hb64 Hget Hval Hcont df hash st1.
  unfold qualifier_body. cbn [asset.Name asset.Value].
  rewrite (SplitN_join _ _ Halgo).
  cbn [String.eqb Ascii.eqb Bool.eqb].
  unfold_go. cbn [nth_error]. rewrite Hb64, Hget.
  cbn [world trace]. rewrite Hval. cbn [world trace]. rewrite Hcont.
  subst st1 df hash. cbn [world trace]. rewrite <- !app_assoc. cbn [app].
  destruct found; cbn [negb]; [|reflexivity].
  destruct (size <? 0); [|reflexivity].
  cbn [world trace].
  destruct (cache_Get env cache.CAS (Some h) (hex.EncodeToString decoded)
              (-1) 0 w1) as [[[rd actualSize] gerr] w2].
  cbn [fst snd world trace].
  destruct (_ || _); cbn [world trace]; rewrite <- ?app_assoc; cbn [app];
    reflexivity.
Qed.

(** X17: when [Contains] finds the digest of a reached [checksum.sri]
    qualifier but does not know its size (a size [< 0]), [FetchBlob] asks
    [Get] for it.  A size [>= 0] returned without error is the size of
    the [OK] response; an error or a negative size makes the loop skip
    the qualifier, with an error line, the digest staying the expected
    hash. *)
Theorem checksum_sri_size_from_Get
    (req : asset.FetchBlobRequest) (pre post : list (option asset.Qualifier))
    (algo b64 : string) (decoded : list byte) (h : hashing.Hasher)
    (size actualSize : Z) (st st0 st1 : State W)
    (hasher0 : option hashing.Hasher) (v : Vars) (w2 w3 : W)
    (rd : option io.ReadCloser) (gerr : option error) :
  asset.Qualifiers req
  = pre ++ Some (asset.mkQualifier "checksum.sri"
                   (algo ++ String "-" b64)%string) :: post ->
  strings.cut "-" algo = None ->
  base64.DecodeString b64 = Some decoded ->
  hashing_Get env (hashing_DigestFunction env algo) = (Some h, None) ->
  hashing.Validate h (hex.EncodeToString decoded) = None ->
  digest_function_hint env (Some req) st = (Returns hasher0, st0) ->
  try_qualifiers env pre (EmptyString, hasher0) st0
  = (Returns (Continue v), st1) ->
  cache_Contains env cache.CAS (Some h) (hex.EncodeToString decoded) (-1)
    (world st1) = ((true, size), w2) ->
  size < 0 ->
  cache_Get env cache.CAS (Some h) (hex.EncodeToString decoded) (-1) 0 w2
  = ((rd, actualSize, gerr), w3) ->
  let hash := hex.EncodeToString decoded in
  let df := hashing_DigestFunction env algo in
  let looked_up :=
    trace st1 ++ [EvHashingGet df; EvContains cache.CAS hash (-1);
                  EvCacheGet cache.CAS hash (-1) 0] in
  (gerr = None -> 0 <= actualSize ->
   FetchBlob env (Some req) st
   = (Returns
        (Some (asset.mkResponse
                 (Some (status.mkStatus codes.OK EmptyString)) EmptyString
                 (Some (pb.mkDigest hash actualSize)) df),
         None),
      mkState w3 looked_up))
  /\ (gerr <> None \/ actualSize < 0 ->
      try_qualifiers env
        (pre ++ [Some (asset.mkQualifier "checksum.sri"
                         (algo ++ String "-" b64)%string)])
        (EmptyString, hasher0) st0
      = (Returns (Continue (hash, Some h)),
         mkState w3
           (looked_up ++
            [EvErrorLog
               (Printf
                  "failed to get CAS %s from proxy backend size: %d err: %v"
                  [LStr hash; LInt actualSize; LErr gerr])]))).
Proof.
  intros Hq Halgo Hb64 Hget Hval Hh Hpre Hcont Hsize Hcget hash df looked_up.
  pose proof (checksum_sri_lookup algo b64 decoded h v st1 true size w2
                Halgo Hb64 Hget Hval Hcont) as Hbody.
  cbv zeta in Hbody. rewrite Hcget in Hbody.
  cbn [negb fst snd world trace] in Hbody.
  destruct (Z.ltb_spec size 0); [|lia].
  rewrite <- !app_assoc in Hbody. cbn [app] in Hbody.
  split.
  - intros -> Hact. destruct (Z.ltb_spec actualSize 0); [lia|].
    cbn [orb] in Hbody.
    apply (FetchBlob_qualifier_returns _ _ _ _ _ _ _ Hh).
    rewrite Hq. unfold try_qualifiers in *.
    rewrite for_range_app, Hpre.
    now apply for_range_Return.
  - intros Hbad.
    assert (E : (match gerr with Some _ => true | None => false end)
                || (actualSize <? 0) = true).
    { destruct Hbad as [Hne | Hneg].
      - destruct gerr; [reflexivity | now contradiction Hne].
      - apply orb_true_iff. right. now apply Z.ltb_lt. }
    rewrite E in Hbody.
    unfold try_qualifiers in *. rewrite for_range_app, Hpre.
    cbn [for_range]. rewrite (bind_Returns _ _ _ _ _ Hbody).
    unfold ret. subst looked_up. now rewrite <- !app_assoc.
Qed.

(** *** From checksum to download *)


(** X19: a [checksum.sri] digest that its hasher's [Validate] rejects
    still becomes the expected hash of the URI loop.  For a registered
    hasher no body hashes to such a digest, so every URI that answers
    2xx without declared length is rejected: with one such URI,
    [FetchBlob] returns [NotFound] and writes nothing to the cache. *)
Theorem rejected_checksum_blocks_download
    (req : asset.FetchBlobRequest) (algo b64 : string)
    (decoded : list byte) (h : hashing.Hasher) (u : string)
    (parsed : url.URL) (st st0 : State W)
    (hasher0 : option hashing.Hasher) (w1 : W) (resp : http.Response) :
  asset.Qualifiers req
  = [Some (asset.mkQualifier "checksum.sri" (algo ++ String "-" b64)%string)] ->
  asset.Uris req = [u] ->
  strings.cut "-" algo = None ->
  base64.DecodeString b64 = Some decoded ->
  decoded <> [] ->
  hashing_Get env (hashing_DigestFunction env algo) = (Some h, None) ->
  In h hashing.registered ->
  hashing.Validate h (hex.EncodeToString decoded) <> None ->
  digest_function_hint env (Some req) st = (Returns hasher0, st0) ->
  url_Parse env u = inl parsed ->
  url.Scheme parsed = "http" \/ url.Scheme parsed = "https" ->
  http_Get env u (world st0) = (inl resp, w1) ->
  200 <= http.StatusCode resp < 300 ->
  http.ContentLength resp < 0 ->
  exists st',
    FetchBlob env (Some req) st
    = (Returns
         (Some (asset.mkResponse
                  (Some (status.mkStatus codes.NotFound EmptyString))
                  EmptyString None hashing.DigestFunction_UNKNOWN),
          None),
       st')
    /\ world st' = w1
    /\ cache_writes (trace st') = cache_writes (trace st).
Proof.
  intros Hq Hu Halgo Hb64 Hne Hget Hin Hval Hh Hparse Hscheme Hhttp Hcode
    Hlen.
  set (hash := hex.EncodeToString decoded) in *.
  assert (Hhash : hashing.Hash h (io.content (http.Body resp)) <> hash).
  { intros E. apply Hval. rewrite <- E.
    destruct Hin as [<-|[<-|[]]];
      [apply sha384_Validate_Hash | apply sha512_Validate_Hash]. }
  assert (Hnonempty : hash <> EmptyString).
  { subst hash. destruct decoded; [now contradiction Hne | discriminate]. }
  destruct (hashing.Validate h hash) as [verr|] eqn:Ev;
    [|now contradiction Hval].
  assert (Hqs : try_qualifiers env (asset.Qualifiers req)
                  (EmptyString, hasher0) st0
                = (Returns (Continue (hash, Some h)),
                   mkState (world st0)
                     (trace st0 ++
                      [EvHashingGet (hashing_DigestFunction env algo);
                       EvErrorLog
                         (Printf
                            ("Invalid " ++ dq ++ "%s" ++ dq ++ " hash " ++ dq
                               ++ "%s" ++ dq ++ ": %v")
                            [LInt (hashing_DigestFunction env algo);
                             LStr b64; LErr (Some verr)])]))).
  { rewrite Hq. unfold try_qualifiers. cbn [for_range].
    unfold qualifier_body. cbn [asset.Name asset.Value].
    rewrite (SplitN_join _ _ Halgo).
    cbn [String.eqb Ascii.eqb Bool.eqb].
    unfold_go. cbn [nth_error]. rewrite Hb64, Hget.
    cbn [world trace]. fold hash. rewrite Ev.
    cbn [world trace]. now rewrite <- !app_assoc. }
  rewrite (FetchBlob_after_qualifiers _ _ _ _ _ _ _ _ Hh Hqs), Hu.
  pose proof (fetchItem_mismatch_buffered env h u hash parsed
                (mkState (world st0)
                   (trace st0 ++
                    [EvHashingGet (hashing_DigestFunction env algo);
                     EvErrorLog
                       (Printf
                          ("Invalid " ++ dq ++ "%s" ++ dq ++ " hash " ++ dq
                             ++ "%s" ++ dq ++ ": %v")
                          [LInt (hashing_DigestFunction env algo);
                           LStr b64; LErr (Some verr)])]))
                resp w1 Hnonempty Hparse Hscheme Hhttp Hcode Hlen Hhash)
    as Hfetch.
  unfold try_uris. cbn [for_range]. unfold uri_body at 1.
  rewrite (bind_Returns _ _ _ _ _
             (bind_Returns _ _ _ _ _ Hfetch : bind _ _ _ = _)).
  eexists. split; [reflexivity|]. split; [reflexivity|].
  cbn [trace]. destruct (digest_function_hint_quiet _ _ _ _ _ Hh) as [_ C0].
  rewrite !cache_writes_app, C0. cbn. now rewrite !app_nil_r.
Qed.

(** *** What [FetchBlob] returns *)

Lemma qualifier_body_Return q v st resp st' :
  qualifier_body env q v st = (Returns (Return resp), st') ->
  resp = nilQualifier
  \/ exists df hash size, resp = resolved df hash size.
Proof.
  unfold qualifier_body. unfold_go.
  repeat break_match; intros H; try discriminate H;
    injection H as <- <-; eauto.
Qed.

Lemma try_qualifiers_Return qs :
  forall v st resp st',
    try_qualifiers env qs v st = (Returns (Return resp), st') ->
    resp = nilQualifier
    \/ exists df hash size, resp = resolved df hash size.
Proof.
  unfold try_qualifiers.
  induction qs as [|q qs IH]; intros v st resp st'; cbn [for_range].
  - discriminate.
  - unfold bind at 1.
    destruct (qualifier_body env q v st) as [[[r|v1]|msg] st1] eqn:E.
    + unfold ret. intros H; injection H as <- <-.
      eapply qualifier_body_Return, E.
    + apply IH.
    + discriminate.
Qed.

(** the response the URI loop returns, and what the call did last *)
Lemma try_uris_Return hasher hash uris :
  forall st resp st',
    try_uris env hasher hash uris st = (Returns (Return resp), st') ->
    exists uri a z df,
      resp = asset.mkResponse (Some (status.mkStatus codes.OK EmptyString))
               uri (Some (pb.mkDigest a z)) df
      /\ In uri uris
      /\ exists t ws rs,
           trace st' = trace st ++ t
           /\ cache_writes t = ws ++ [(a, z)]
           /\ http_requests t = rs ++ [uri].
Proof.
  unfold try_uris.
  induction uris as [|uri uris IH]; intros st resp st'; cbn [for_range].
  - discriminate.
  - unfold bind at 1. unfold uri_body at 1. unfold bind at 1.
    destruct (fetchItem env hasher uri hash st) as [[[[ok a] z]|msg] st1] eqn:E;
      [|discriminate].
    destruct ok.
    + apply fetchItem_success in E. destruct E as (t & Et & Hr & Hw).
      unfold method. destruct hasher as [h|]; [|discriminate].
      unfold ret. intros H; injection H as <- <-.
      exists uri, a, z, (hashing.DigestFunction h).
      split; [reflexivity|]. split; [now left|].
      exists t, [], []. auto.
    + unfold ret at 1. intros H. apply IH in H.
      destruct H as (uri' & a' & z' & df & -> & Hin & t & ws & rs & Et & Hw & Hr).
      exists uri', a', z', df. split; [reflexivity|]. split; [now right|].
      pose proof (fetchItem_requests env _ _ _ _ _ _ E) as (t1 & Et1 & _).
      exists (t1 ++ t), (cache_writes t1 ++ ws), (http_requests t1 ++ rs).
      rewrite Et, Et1, cache_writes_app, http_requests_app, Hw, Hr,
        <- !app_assoc.
      auto.
Qed.

(** X20: what [FetchBlob] returns when it returns.  For a [nil] request:
    no response and the [InvalidArgument] error.  For any other request:
    no error and a response whose status is [OK] with a blob digest, or
    [InvalidArgument] or [NotFound] without digest and without URI. *)
Theorem FetchBlob_result_shape
    (req : option asset.FetchBlobRequest) (st st' : State W)
    (resp : option asset.FetchBlobResponse) (err : option error) :
  FetchBlob env req st = (Returns (resp, err), st') ->
  (req = None /\ resp = None
   /\ err = Some (grpc_status_Error codes.InvalidArgument
                    "expected a non-nil *FetchBlobRequest"))
  \/ (req <> None /\ err = None
      /\ exists r,
           resp = Some r
           /\ ((exists hash size,
                  asset.rStatus r
                  = Some (status.mkStatus codes.OK EmptyString)
                  /\ asset.rBlobDigest r = Some (pb.mkDigest hash size))
               \/ (asset.rStatus r
                   = Some (status.mkStatus codes.InvalidArgument
                             "unexpected nil qualifier in FetchBlobRequest")
                   /\ asset.rBlobDigest r = None
                   /\ asset.rUri r = EmptyString)
               \/ (asset.rStatus r
                   = Some (status.mkStatus codes.NotFound EmptyString)
                   /\ asset.rBlobDigest r = None
                   /\ asset.rUri r = EmptyString))).
Proof.
  unfold FetchBlob.
  rewrite (bind_Returns _ _ _ _ _ (digest_function_hint_runs env req st)).
  destruct req as [req|].
  - intros H. right. split; [discriminate|].
    revert H. unfold bind at 1.
    destruct (try_qualifiers env _ _ _) as [[[r|[hash hasher]]|msg] st1] eqn:Eq.
    + unfold ret. intros H; injection H as <- <- <-.
      split; [reflexivity|]. exists r. split; [reflexivity|].
      destruct (try_qualifiers_Return _ _ _ _ _ Eq)
        as [-> | (df & hash & size & ->)]; [right; left; auto|].
      left. exists hash, size. auto.
    + unfold bind at 1.
      destruct (try_uris env hasher hash _ st1) as [[[r|[]]|msg] st2] eqn:Eu.
      * unfold ret. intros H; injection H as <- <- <-.
        split; [reflexivity|]. exists r. split; [reflexivity|].
        destruct (try_uris_Return _ _ _ _ _ _ Eu)
          as (uri & a & z & df & -> & _).
        left. exists a, z. auto.
      * unfold ret. intros H; injection H as <- <- <-.
        split; [reflexivity|]. exists notFound. split; [reflexivity|].
        right; right. auto.
      * discriminate.
    + discriminate.
  - unfold ret. intros H; injection H as <- <- <-. left. auto.
Qed.

(** X21: where an [OK] response comes from.  Either a qualifier resolved
    from the CAS: the response has no URI, and the call has sent no
    request and written nothing to the cache.  Or a URI of the request
    was fetched: it is the URI of the response and the last one
    requested, and the last write to the cache was made under the hash
    and size of the response. *)
Theorem OK_response_provenance
    (req : asset.FetchBlobRequest) (st st' : State W)
    (r : asset.FetchBlobResponse) (hash : string) (size : Z) :
  FetchBlob env (Some req) st = (Returns (Some r, None), st') ->
  asset.rBlobDigest r = Some (pb.mkDigest hash size) ->
  (asset.rUri r = EmptyString
   /\ http_requests (trace st') = http_requests (trace st)
   /\ cache_writes (trace st') = cache_writes (trace st))
  \/ (In (asset.rUri r) (asset.Uris req)
      /\ exists ws rs,
           cache_writes (trace st')
           = cache_writes (trace st) ++ ws ++ [(hash, size)]
           /\ http_requests (trace st')
              = http_requests (trace st) ++ rs ++ [asset.rUri r]).
Proof.
  unfold FetchBlob.
  pose proof (digest_function_hint_runs env (Some req) st) as Hh.
  rewrite (bind_Returns _ _ _ _ _ Hh).
  destruct (digest_function_hint_quiet env _ _ _ _ Hh) as [H0 C0].
  cbn [asset.GetQualifiers asset.GetUris].
  unfold bind at 1.
  destruct (try_qualifiers env _ _ _) as [[[r1|[hash1 hasher]]|msg] st1] eqn:Eq;
    [| |discriminate];
    destruct (try_qualifiers_quiet env _ _ _ _ _ Eq) as (t1 & E1 & H1 & C1).
  - unfold ret. intros H; injection H as <- <-. intros Hd. left.
    destruct (try_qualifiers_Return _ _ _ _ _ Eq)
      as [-> | (df & a & z & ->)]; [discriminate Hd|].
    split; [reflexivity|].
    rewrite E1, http_requests_app, cache_writes_app, H1, C1, !app_nil_r.
    auto.
  - unfold bind at 1.
    destruct (try_uris env hasher hash1 _ st1) as [[[r2|[]]|msg] st2] eqn:Eu;
      [| |discriminate].
    + unfold ret. intros H; injection H as <- <-. intros Hd. right.
      destruct (try_uris_Return _ _ _ _ _ _ Eu)
        as (uri & a & z & df & -> & Hin & t & ws & rs & Et & Hw & Hr).
      cbn [asset.rBlobDigest] in Hd. injection Hd as -> ->.
      cbn [asset.rUri]. split; [exact Hin|].
      exists ws, rs.
      rewrite Et, E1, !http_requests_app, !cache_writes_app, H1, C1, Hw, Hr,
        H0, C0, !app_nil_r.
      auto.
    + unfold ret. intros H; injection H as <- <-. discriminate.
Qed.


End AssetMore.

(* ------------------------------------------------------------------ *)
(** ** The further properties at concrete requests *)


Lemma fetchItem_unsupported_uri_witness :
  exists l,
    server.fetchItem fixture.env None "ftp://mirror.test/blob.tar.gz"
      fixture.blob_digest (fixture.start [])
    = (server.Returns (false, EmptyString, -1),
       server.mkState (fixture.mkWorld [] fixture.blob)
         [server.EvErrorLog l]).
Proof.
  apply (fetchItem_unsupported_uri fixture.env None
           "ftp://mirror.test/blob.tar.gz" fixture.blob_digest
           (fixture.start [])).
  split; discriminate.
Defined.

Lemma fetchItem_non_2xx_witness :
  exists st',
    server.fetchItem fixture.env None fixture.uri_404 EmptyString
      (fixture.start [])
    = (server.Returns (false, EmptyString, -1), st').
Proof.
  eexists.
  eapply (fetchItem_non_2xx fixture.env None fixture.uri_404 EmptyString
            (url.mkURL "http") (fixture.start []));
    [reflexivity | left; reflexivity | reflexivity | right; simpl; lia].
Defined.

Lemma fetchItem_buffered_witness :
  exists st',
    server.fetchItem fixture.env (Some hashing.sha512Hasher)
      fixture.uri_stream EmptyString (fixture.start [])
    = (server.Returns
         (true, hashing.Hash hashing.sha512Hasher fixture.blob, 5), st').
Proof.
  eexists.
  refine (fetchItem_buffered fixture.env hashing.sha512Hasher
            fixture.uri_stream EmptyString (url.mkURL "http")
            (fixture.start [])
            (http.mkResponse "200 OK" 200 (-1) (io.mkReader fixture.blob None))
            (fixture.mkWorld [] fixture.blob) _ None
            _ _ _ _ _ _ _ _);
    [reflexivity | left; reflexivity | reflexivity | simpl; lia
    | reflexivity | left; reflexivity | reflexivity
    | left; reflexivity].
Defined.

Lemma fetchItem_nil_hasher_panics_witness :
  exists st',
    server.fetchItem fixture.env None fixture.uri_stream EmptyString
      (fixture.start [])
    = (server.Panics "invalid memory address or nil pointer dereference",
       st').
Proof.
  eexists.
  eapply (fetchItem_nil_hasher_panics fixture.env fixture.uri_stream
            EmptyString (url.mkURL "http") (fixture.start []));
    [reflexivity | left; reflexivity | reflexivity | simpl; lia
    | reflexivity | left; reflexivity].
Defined.

Lemma checksum_sri_size_from_Get_witness :
  exists st',
    server.FetchBlob fixture.proxy_env (Some fixture.two_checksums_request)
      (fixture.start [(fixture.blob_digest, 5)])
    = (server.Returns
         (Some (asset.mkResponse
                  (Some (status.mkStatus codes.OK EmptyString)) EmptyString
                  (Some (pb.mkDigest
                           (hex.EncodeToString (sha512.Sum512 fixture.blob))
                           5))
                  hashing.DigestFunction_SHA512),
          None),
       st').
Proof.
  edestruct (checksum_sri_size_from_Get fixture.proxy_env
               fixture.two_checksums_request
               [fixture.checksum fixture.sri_empty] [None]
               "sha512" fixture.b64_blob
               (sha512.Sum512 fixture.blob) hashing.sha512Hasher (-1) 5
               (fixture.start [(fixture.blob_digest, 5)])) as [H _];
    [reflexivity | reflexivity | vm_compute; reflexivity | reflexivity
    | vm_compute; reflexivity | reflexivity | reflexivity
    | vm_compute; reflexivity | lia | vm_compute; reflexivity | ].
  eexists. apply H; [reflexivity | lia].
Defined.


Lemma rejected_checksum_blocks_download_witness :
  exists st',
    server.FetchBlob fixture.env (Some fixture.short_checksum_request)
      (fixture.start [])
    = (server.Returns
         (Some (asset.mkResponse
                  (Some (status.mkStatus codes.NotFound EmptyString))
                  EmptyString None hashing.DigestFunction_UNKNOWN),
          None),
       st')
    /\ server.world st' = fixture.mkWorld [] fixture.blob
    /\ server.cache_writes (server.trace st') = [].
Proof.
  eapply (rejected_checksum_blocks_download fixture.env
            fixture.short_checksum_request "sha512" "AAAA"
            [x00; x00; x00] hashing.sha512Hasher fixture.uri_stream
            (url.mkURL "http") (fixture.start []));
    [reflexivity | reflexivity | reflexivity | reflexivity | discriminate
    | reflexivity | simpl; auto | vm_compute; discriminate | reflexivity
    | reflexivity | left; reflexivity | reflexivity | simpl; lia
    | simpl; lia ].
Defined.

Lemma FetchBlob_result_shape_witness :
  exists r hash size,
    fst (server.FetchBlob fixture.env (Some fixture.three_uris_request)
           (fixture.start []))
    = server.Returns (Some r, None)
    /\ asset.rStatus r = Some (status.mkStatus codes.OK EmptyString)
    /\ asset.rBlobDigest r = Some (pb.mkDigest hash size).
Proof.
  edestruct (FetchBlob_result_shape fixture.env
               (Some fixture.three_uris_request) (fixture.start []))
    as [(Hnil & _) | (_ & _ & r & Hr & [(hash & size & Hs & Hd) | [H | H]])];
    [vm_compute; reflexivity | discriminate Hnil | | | ];
    injection Hr as <-.
  - eexists _, hash, size. split; [vm_compute; reflexivity|].
    split; [exact Hs | exact Hd].
  - destruct H as (H & _). discriminate H.
  - destruct H as (H & _). discriminate H.
Defined.

Lemma OK_response_provenance_witness :
  exists ws rs,
    server.cache_writes
      (server.trace
         (snd (server.FetchBlob fixture.env
                 (Some fixture.three_uris_request) (fixture.start []))))
    = ws ++ [(fixture.blob_digest, 5)]
    /\ server.http_requests
         (server.trace
            (snd (server.FetchBlob fixture.env
                    (Some fixture.three_uris_request) (fixture.start []))))
       = rs ++ [fixture.uri_stream].
Proof.
  edestruct (OK_response_provenance fixture.env fixture.three_uris_request
               (fixture.start []))
    as [(H & _) | (_ & ws & rs & Hw & Hr)];
    [vm_compute; reflexivity | reflexivity | discriminate H | ].
  exists ws, rs. split; [exact Hw | exact Hr].
Defined.


(* ------------------------------------------------------------------ *)
(** ** The checksum check is a length check *)

Lemma Forall_lower_hex_match (n : nat) (value : string) :
  String.length value = n ->
  Forall (fun c => regexp.lower_hex c = true) (list_ascii_of_string value) ->
  regexp.match_repeat regexp.lower_hex n value = true.
Proof. intros H1 H2. now apply match_repeat_spec. Qed.

(** X23: in [FetchBlob], [Validate] is applied to the hexadecimal
    encoding of the decoded payload; for a registered hasher it succeeds
    exactly when the payload has [Size()] bytes.  The pattern never
    fails there: [hex.EncodeToString] only yields characters of
    [[a-f0-9]]. *)
Theorem Validate_of_encoded (h : hashing.Hasher) (decoded : list byte) :
  In h hashing.registered ->
  (hashing.Validate h (hex.EncodeToString decoded) = None
   <-> Z.of_nat (List.length decoded) = hashing.Size h).
Proof.
  intros Hin.
  assert (Hshape : forall n (e1 e2 : error),
    (if negb (Z.of_nat n =? len (hex.EncodeToString decoded)) then Some e1
     else if negb (regexp.match_repeat regexp.lower_hex n
                     (hex.EncodeToString decoded)) then Some e2
     else None) = None
    <-> Z.of_nat n = 2 * Z.of_nat (List.length decoded)).
  { intros n e1 e2. rewrite length_then_pattern, len_EncodeToString.
    split; [intros [H _]; lia|]. intros H. split; [lia|].
    apply EncodeToString_lower_hex. }
  destruct Hin as [<-|[<-|[]]].
  - etransitivity; [exact (Hshape 96%nat _ _)|].
    cbn [hashing.Size hashing.sha384Hasher].
    unfold hashing.sha384_Size, sha512.Size384. lia.
  - etransitivity; [exact (Hshape 128%nat _ _)|].
    cbn [hashing.Size hashing.sha512Hasher].
    unfold hashing.sha512_Size, sha512.Size. lia.
Qed.

Lemma Validate_of_encoded_witness :
  hashing.Validate hashing.sha512Hasher
    (hex.EncodeToString (sha512.Sum512 fixture.blob)) = None
  <-> Z.of_nat (List.length (sha512.Sum512 fixture.blob)) = 64.
Proof.
  apply (Validate_of_encoded hashing.sha512Hasher
           (sha512.Sum512 fixture.blob)).
  simpl; auto.
Defined.

(* ------------------------------------------------------------------ *)
(** ** When [FetchBlob] cannot panic *)

Lemma SplitN_separator (s a b : string) (sep : ascii) :
  strings.cut sep s = Some (a, b) -> strings.SplitN s sep 2 = [a; b].
Proof.
  intros H. unfold strings.SplitN.
  destruct s as [|c s]; [discriminate H|].
  replace (Nat.min 2 (String.length (String c s) + 1)) with 2%nat
    by (cbn [String.length]; lia).
  unfold strings.split_loop. now rewrite H.
Qed.

Section NoPanic.
Context {W : Type} (env : server.Env W).
Import server.

Ltac returns_now :=
  do 2 eexists; split; [reflexivity | cbn [snd]; eauto].

Lemma qualifier_body_returns q hash0 h0 st :
  resolvable env q ->
  exists fl st',
    qualifier_body env q (hash0, Some h0) st = (Returns fl, st')
    /\ match fl with
       | Continue v => exists h, snd v = Some h
       | Return _ => True
       end.
Proof.
  destruct q as [q|]; cbn [resolvable]; [|intros _; returns_now].
  unfold qualifier_body.
  destruct (String.eqb_spec (asset.Name q) "checksum.sri") as [E|E];
    [|intros _; unfold ret; returns_now].
  intros Hres. destruct (Hres E) as (a & b & h & Ecut & Hh).
  rewrite (SplitN_separator _ _ _ _ Ecut).
  unfold_go. cbn [nth_error].
  destruct (base64.DecodeString b) as [decoded|]; [|returns_now].
  destruct (hashing_Get env (hashing_DigestFunction env a)) as [o e].
  cbn [fst] in Hh. subst o.
  repeat break_match; returns_now.
Qed.

Lemma try_qualifiers_returns qs :
  forall hash0 h0 st,
    Forall (resolvable env) qs ->
    exists fl st',
      try_qualifiers env qs (hash0, Some h0) st = (Returns fl, st')
      /\ match fl with
         | Continue v => exists h, snd v = Some h
         | Return _ => True
         end.
Proof.
  unfold try_qualifiers.
  induction qs as [|q qs IH]; intros hash0 h0 st Hall; cbn [for_range].
  - unfold ret. returns_now.
  - inversion Hall as [|? ? Hq Hqs]; subst.
    destruct (qualifier_body_returns q hash0 h0 st Hq)
      as ([r|[hash1 hasher1]] & st1 & E & Hfl);
      rewrite (bind_Returns _ _ _ _ _ E).
    + unfold ret. returns_now.
    + cbn [snd] in Hfl. destruct Hfl as [h1 ->]. now apply IH.
Qed.

Lemma fetchItem_returns h uri expectedHash st :
  exists out st', fetchItem env (Some h) uri expectedHash st
                  = (Returns out, st').
Proof.
  unfold fetchItem, io.ReadAll. unfold_go.
  repeat break_match; eauto.
Qed.

Lemma try_uris_returns h hash uris :
  forall st, exists fl st',
    try_uris env (Some h) hash uris st = (Returns fl, st').
Proof.
  unfold try_uris.
  induction uris as [|uri uris IH]; intros st; cbn [for_range].
  - unfold ret. eauto.
  - unfold bind at 1. unfold uri_body at 1. unfold bind at 1.
    destruct (fetchItem_returns h uri hash st) as ([[ok a] z] & st1 & ->).
    destruct ok; [unfold method, bind, ret; eauto | unfold ret at 1; apply IH].
Qed.

(** X24: if the registry returns a hasher for the digest function of the
    request and for the algorithm of each of its [checksum.sri]
    qualifiers, and each of these has a separator in its value,
    [FetchBlob] does not panic: it returns a response and no error. *)
Theorem FetchBlob_returns (req : asset.FetchBlobRequest) (st : State W) :
  (exists h0, fst (hashing_Get env (asset.DigestFunction req)) = Some h0) ->
  Forall (resolvable env) (asset.Qualifiers req) ->
  exists resp st',
    FetchBlob env (Some req) st = (Returns (Some resp, None), st').
Proof.
  intros [h0 Hh0] Hall. unfold FetchBlob.
  rewrite (bind_Returns _ _ _ _ _
             (digest_function_hint_runs env (Some req) st)).
  cbn [asset.GetDigestFunction asset.GetQualifiers asset.GetUris].
  rewrite Hh0.
  destruct (try_qualifiers_returns (asset.Qualifiers req) EmptyString h0
              (mkState (world st)
                 (trace st ++
                  EvHashingGet (asset.DigestFunction req)
                  :: match snd (hashing_Get env (asset.DigestFunction req)) with
                     | Some e =>
                         [EvErrorLog
                            (Printf "Unknown digest function %d: %v"
                               [LInt (asset.DigestFunction req);
                                LErr (Some e)])]
                     | None => []
                     end)) Hall)
    as ([r|[hash1 hasher1]] & st1 & E & Hfl);
    rewrite (bind_Returns _ _ _ _ _ E).
  - unfold ret. eauto.
  - cbn [snd] in Hfl. destruct Hfl as [h1 ->].
    destruct (try_uris_returns h1 hash1 (asset.Uris req) st1)
      as ([r|[]] & st2 & Eu);
      rewrite (bind_Returns _ _ _ _ _ Eu); unfold ret; eauto.
Qed.

End NoPanic.


Lemma FetchBlob_returns_witness :
  exists resp st',
    server.FetchBlob fixture.env (Some fixture.sha512_request)
      (fixture.start [])
    = (server.Returns (Some resp, None), st').
Proof.
  apply (FetchBlob_returns fixture.env fixture.sha512_request
           (fixture.start [])).
  - eexists. reflexivity.
  - repeat constructor.
    + discriminate.
    + intros _.
      exists "sha512",
        "z4PhNX7vuL3xVChQ1m2AB9Yg5AULVxXcg/SpIdNs6c5H0NE8XYXysP+DGNKHfuwvY7kxvUdBeoGlODJ6+SfaPg==",
        hashing.sha512Hasher.
      split; reflexivity.
Defined.
